(** * nest-demo-app: user accounts, credential check and verification flow

    A shallow embedding of the services of the repository
    ([UserService], [AuthService], [UserController.getUserById]) together
    with the properties of its specification.

    The services are asynchronous TypeScript methods that talk to a Mongoose
    model, to bcrypt, to a JWT signer, to an email service and to the Nest
    logger.  Every [await] is sequential inside one request, so a method is
    embedded as a function in a state-and-exception monad over a [World]
    holding the collection, the requests handed to the email service and the
    log.  A thrown exception leaves the world as it was when the exception
    was raised: nothing in the source rolls a write back. *)

From Stdlib Require Import String Ascii List ZArith NArith Bool Lia DecimalString.
Import ListNotations.
Open Scope string_scope.
Open Scope Z_scope.

Set Implicit Arguments.

(** ** JavaScript values *)

(** Plain objects as they travel in payloads: an object is the ordered list
    of its own keys. *)
#[local] Unset Elimination Schemes.
Inductive Json : Type :=
| JNull
| JBool (b : bool)
| JNum (n : Z)
| JStr (s : string)
| JArr (items : list Json)
| JObj (fields : list (string * Json)).
#[local] Set Elimination Schemes.

Fixpoint lookup_field (key : string) (fields : list (string * Json)) : option Json :=
  match fields with
  | [] => None
  | (k, v) :: rest => if String.eqb k key then Some v else lookup_field key rest
  end.

(** [obj.key] on a payload; [None] is JavaScript's [undefined]. *)
Definition get_field (key : string) (obj : Json) : option Json :=
  match obj with
  | JObj fields => lookup_field key fields
  | _ => None
  end.

Definition has_field (key : string) (obj : Json) : bool :=
  match get_field key obj with
  | Some _ => true
  | None => false
  end.

(** ** The data model (user.model.ts) *)

(** A [Types.ObjectId] is carried as its hexadecimal string. *)
Definition ObjectId := string.

(** A stored document of the [User] class, with the [_id] the store assigns. *)
Record UserDocument : Type := mkUser {
  _id : ObjectId;
  username : string;
  email : string;
  password : string;
  files : list Json;
  isActive : bool;
  createdAt : Z
}.

(** The options a [@Prop] decorator can carry that matter to the store. *)
Record PropOptions : Type := { unique : bool }.

Record Schema : Type := {
  prop_username : PropOptions;
  prop_email : PropOptions
}.

(** [@Prop() username] and [@Prop() email]: no option is given. *)
Definition UserSchema : Schema :=
  {| prop_username := {| unique := false |};
     prop_email := {| unique := false |} |}.

(** [files] defaults to the empty array and [isActive] to [false]. *)
Definition default_files : list Json := [].
Definition default_isActive : bool := false.

(** What Mongoose serialises for a document: every path of the schema. *)
Definition toObject (u : UserDocument) : Json :=
  JObj [ ("_id", JStr (_id u));
         ("username", JStr (username u));
         ("email", JStr (email u));
         ("password", JStr (password u));
         ("files", JArr (files u));
         ("isActive", JBool (isActive u));
         ("createdAt", JNum (createdAt u)) ].

(** Modelled from the spec: [CreateUserDto] (src/dto/user/create-user.dto is
    not among the sources), the signup input {username, email, password, ...}.
    [createNewUser] spreads the body whole into the new document, so besides
    the three fields the body may carry any other path of the document
    ([_id], [files], [isActive], [createdAt]), each with a value of the type
    of that path; [None] is a path the body does not carry.  A key that is no
    path of the schema is dropped by the model. *)
Record CreateUserDto : Type := {
  dto_username : string;
  dto_email : string;
  dto_password : string;
  dto__id : option ObjectId;
  dto_files : option (list Json);
  dto_isActive : option bool;
  dto_createdAt : option Z
}.

(** Modelled from the spec: [UpdateUserDto] (src/dto/user/update-user.dto is
    not among the sources), the "partial fields" of an account update.
    [updateUser] hands the body whole to [findByIdAndUpdate], so it may carry
    any path of the schema; [None] is a path the body does not carry.  The
    [_id] of a stored document is immutable and is no part of an update. *)
Record UpdateUserDto : Type := {
  upd_username : option string;
  upd_email : option string;
  upd_password : option string;
  upd_files : option (list Json);
  upd_isActive : option bool;
  upd_createdAt : option Z
}.

(** The object handed to [emailService.sendEmail]. *)
Record EmailData : Type := {
  mail_URL : option string;
  mail_name : string;
  mail_email : string;
  mail_subject : string;
  mail_template : string
}.

(** ** Exceptions *)

Inductive Exception : Type :=
| BadRequestException (message : string)
| NotFoundException (message : string)
| InternalServerErrorException (message : string)
| NotAcceptableException (message : string)
| MongoServerError (code : Z) (message : string)
| CastError (message : string)
| Error (message : string).

(** [error.message] *)
Definition error_message (e : Exception) : string :=
  match e with
  | BadRequestException m | NotFoundException m
  | InternalServerErrorException m | NotAcceptableException m
  | MongoServerError _ m | CastError m | Error m => m
  end.

(** [error.code]; [None] is [undefined]. *)
Definition error_code (e : Exception) : option Z :=
  match e with
  | MongoServerError c _ => Some c
  | _ => None
  end.

(** [error.code === 11000] *)
Definition is_duplicate_key (e : Exception) : bool :=
  match error_code e with
  | Some c => c =? 11000
  | None => false
  end.

Definition instanceof_NotFoundException (e : Exception) : bool :=
  match e with NotFoundException _ => true | _ => false end.

Definition instanceof_BadRequestException (e : Exception) : bool :=
  match e with BadRequestException _ => true | _ => false end.

(** The HTTP status an exception of the framework stands for. *)
Definition http_status (e : Exception) : Z :=
  match e with
  | BadRequestException _ => 400
  | NotFoundException _ => 404
  | NotAcceptableException _ => 406
  | _ => 500
  end.

(** ** The world and the monad *)

Record World : Type := mkWorld {
  db : list UserDocument;        (* the collection, in insertion order *)
  emails : list EmailData;       (* requests handed to the email service *)
  logs : list string;            (* lines written through Logger *)
  now : Z;                       (* Date.now() *)
  entropy : nat                  (* source of salts and fresh ids *)
}.

Inductive Result (A : Type) : Type :=
| Return (a : A)
| Throw (e : Exception).

Arguments Return {A} a.
Arguments Throw {A} e.

Definition M (A : Type) : Type := World -> Result A * World.

Definition ret {A} (a : A) : M A := fun w => (Return a, w).

Definition throw {A} (e : Exception) : M A := fun w => (Throw e, w).

Definition bind {A B} (m : M A) (k : A -> M B) : M B :=
  fun w =>
    match m w with
    | (Return a, w') => k a w'
    | (Throw e, w') => (Throw e, w')
    end.

(** [try { m } catch (error) { handler error }]: the handler runs in the
    world the failed body left behind. *)
Definition try_catch {A} (m : M A) (handler : Exception -> M A) : M A :=
  fun w =>
    match m w with
    | (Return a, w') => (Return a, w')
    | (Throw e, w') => handler e w'
    end.

Definition get_world : M World := fun w => (Return w, w).

Definition set_db (d : list UserDocument) : M unit :=
  fun w => (Return tt, mkWorld d (emails w) (logs w) (now w) (entropy w)).

Definition tick : M nat :=
  fun w => (Return (entropy w),
            mkWorld (db w) (emails w) (logs w) (now w) (S (entropy w))).

Definition Logger_write (line : string) : M unit :=
  fun w => (Return tt,
            mkWorld (db w) (emails w) (logs w ++ [line]) (now w) (entropy w)).

Definition Logger_verbose := Logger_write.
Definition Logger_error := Logger_write.

Declare Scope monad_scope.
Delimit Scope monad_scope with monad.
Notation "x <- m ;; k" := (bind m (fun x => k))
  (at level 61, m at next level, right associativity) : monad_scope.
Notation "m ;;; k" := (bind m (fun _ => k))
  (at level 61, right associativity) : monad_scope.
Open Scope monad_scope.

(** ** Library functions *)

Definition hex_digit (n : nat) : ascii :=
  nth n (list_ascii_of_string "0123456789ABCDEF") "0"%char.

Definition is_unreserved (c : ascii) : bool :=
  let n := nat_of_ascii c in
  ((65 <=? n) && (n <=? 90))%nat || ((97 <=? n) && (n <=? 122))%nat
  || ((48 <=? n) && (n <=? 57))%nat
  || existsb (Ascii.eqb c) (list_ascii_of_string "-_.!~*'()").

(** [encodeURIComponent] on a string of bytes. *)
Fixpoint encodeURIComponent (s : string) : string :=
  match s with
  | EmptyString => EmptyString
  | String c rest =>
      if is_unreserved c then String c (encodeURIComponent rest)
      else String "%"%char
             (String (hex_digit (nat_of_ascii c / 16))
                (String (hex_digit (nat_of_ascii c mod 16))
                   (encodeURIComponent rest)))
  end.

(** The collaborators whose code is outside the repository: bcrypt, the
    ObjectId class of the driver, and the email service. *)
Record Collaborators : Type := {
  (** [bcrypt.genSalt(rounds)], drawing on the entropy of the process *)
  bcrypt_genSalt : Z -> nat -> string;
  (** [bcrypt.hash(data, salt)] *)
  bcrypt_hash : string -> string -> string;
  (** [bcrypt.compare(data, encrypted)] *)
  bcrypt_compare : string -> string -> bool;
  (** [Types.ObjectId.isValid(id)] *)
  ObjectId_isValid : string -> bool;
  (** [new Types.ObjectId(id).toString()] for a valid [id] *)
  ObjectId_new : string -> ObjectId;
  (** the identifier a new document receives *)
  ObjectId_generate : nat -> ObjectId;
  (** the message of the CastError raised for a malformed [_id] *)
  castErrorMessage : string -> string;
  (** Modelled from the spec: [EmailService.sendEmail] (src/email/email.service
      is not among the sources), [send(...) -> void | SendError]: [None] when
      the message is sent, [Some m] when the call rejects with an error of
      message [m]. *)
  sendEmail_outcome : EmailData -> option string
}.

(** [JwtModule.register({ secret, signOptions: { expiresIn } })] *)
Record JwtOptions : Type := {
  secret : string;
  expiresIn : string
}.

Definition jwtModuleOptions : JwtOptions :=
  {| secret := "secretKey"; expiresIn := "3000s" |}.

(** A signed token, kept symbolic: the payload, the key that signed it and
    its lifetime. *)
Record SignedToken : Type := {
  token_payload : Json;
  token_key : string;
  token_expiresIn : string
}.

(** [jwtService.sign(payload)] *)
Definition JwtService_sign (opts : JwtOptions) (payload : Json) : SignedToken :=
  {| token_payload := payload;
     token_key := secret opts;
     token_expiresIn := expiresIn opts |}.

(** [jwtService.verify(token)]: the payload, when the signature is ours. *)
Definition JwtService_verify (opts : JwtOptions) (t : SignedToken) : option Json :=
  if String.eqb (token_key t) (secret opts) then Some (token_payload t) else None.

(** ** The Mongoose model over the collection *)

(** The two shapes of filter the services pass to [findOne]. *)
Inductive Query : Type :=
| ByEmail (email : string)        (* { email } *)
| ById (userId : string).         (* { _id: userId } *)

(** The two shapes of update the services pass to [findByIdAndUpdate]. *)
Inductive Update : Type :=
| SetFields (dto : UpdateUserDto)   (* updateUserDTO *)
| PushFile (fileData : Json).       (* { $push: { files: fileData } } *)

Definition or_keep (o : option string) (old : string) : string :=
  match o with
  | Some v => v
  | None => old
  end.

(** The value a body gives to a path, or else the value at hand (the stored
    one in an update, the default of the schema in a new document). *)
Definition or_else {A} (given : option A) (otherwise : A) : A :=
  match given with
  | Some v => v
  | None => otherwise
  end.

Definition apply_update (upd : Update) (u : UserDocument) : UserDocument :=
  match upd with
  | SetFields dto =>
      mkUser (_id u) (or_keep (upd_username dto) (username u))
             (or_keep (upd_email dto) (email u))
             (or_keep (upd_password dto) (password u))
             (or_else (upd_files dto) (files u))
             (or_else (upd_isActive dto) (isActive u))
             (or_else (upd_createdAt dto) (createdAt u))
  | PushFile fileData =>
      mkUser (_id u) (username u) (email u) (password u)
             (files u ++ [fileData]) (isActive u) (createdAt u)
  end.

Definition has_id (oid : ObjectId) (u : UserDocument) : bool :=
  String.eqb (_id u) oid.

Definition has_email (e : string) (u : UserDocument) : bool :=
  String.eqb (email u) e.

(** The first document with the given [_id]. *)
Definition find_by_id (oid : ObjectId) (docs : list UserDocument) : option UserDocument :=
  find (has_id oid) docs.

(** Rewrites the first document with the given [_id], in place. *)
Fixpoint update_first (oid : ObjectId) (f : UserDocument -> UserDocument)
    (docs : list UserDocument) : list UserDocument :=
  match docs with
  | [] => []
  | u :: rest =>
      if has_id oid u then f u :: rest else u :: update_first oid f rest
  end.

Definition set_isActive (b : bool) (u : UserDocument) : UserDocument :=
  mkUser (_id u) (username u) (email u) (password u) (files u) b (createdAt u).

Section Store.

Variable ext : Collaborators.
Variable schema : Schema.

(** Mongoose casts a filter on [_id] to an ObjectId and rejects a value
    that is not one. *)
Definition castObjectId (id : string) : M ObjectId :=
  if ObjectId_isValid ext id then ret (ObjectId_new ext id)
  else throw (CastError (castErrorMessage ext id)).

Definition Model_findOne (q : Query) : M (option UserDocument) :=
  match q with
  | ByEmail e =>
      w <- get_world ;;
      ret (find (has_email e) (db w))
  | ById userId =>
      oid <- castObjectId userId ;;
      w <- get_world ;;
      ret (find_by_id oid (db w))
  end.

Definition Model_findById (userId : string) : M (option UserDocument) :=
  Model_findOne (ById userId).

(** [findByIdAndUpdate(objectId, update, { new: true })]: the updated
    document, or [null] when no document has that [_id]. *)
Definition Model_findByIdAndUpdate (oid : ObjectId) (upd : Update)
    : M (option UserDocument) :=
  w <- get_world ;;
  match find_by_id oid (db w) with
  | None => ret None
  | Some u =>
      set_db (update_first oid (apply_update upd) (db w)) ;;;
      ret (Some (apply_update upd u))
  end.

(** [new this.userModel({ ...createUserDTO, password })]: every path the
    body carries is taken from the body, except [password], which the
    spread overrides with the hash; a path the body does not carry gets a
    fresh [_id] or the default of the schema. *)
Definition Model_new (dto : CreateUserDto) (hashedPassword : string)
    : M UserDocument :=
  n <- tick ;;
  w <- get_world ;;
  ret (mkUser (or_else (dto__id dto) (ObjectId_generate ext n))
              (dto_username dto) (dto_email dto)
              hashedPassword
              (or_else (dto_files dto) default_files)
              (or_else (dto_isActive dto) default_isActive)
              (or_else (dto_createdAt dto) (now w))).

(** The collection always has its unique index on [_id]; a unique index
    exists for another path only when its [@Prop] asks for one. *)
Definition violates_unique (doc : UserDocument) (docs : list UserDocument) : bool :=
  existsb
    (fun u =>
       has_id (_id doc) u
       || (unique (prop_username schema) && String.eqb (username u) (username doc))
       || (unique (prop_email schema) && String.eqb (email u) (email doc)))
    docs.

(** [save()] of a new document: an insert. *)
Definition Document_insert (doc : UserDocument) : M UserDocument :=
  w <- get_world ;;
  if violates_unique doc (db w)
  then throw (MongoServerError 11000 "E11000 duplicate key error")
  else set_db (db w ++ [doc]) ;;; ret doc.

(** [save()] of a document read from the collection and then modified. *)
Definition Document_save (doc : UserDocument) : M unit :=
  w <- get_world ;;
  set_db (update_first (_id doc) (fun _ => doc) (db w)).

Definition EmailService_sendEmail (data : EmailData) : M unit :=
  fun w =>
    let w' := mkWorld (db w) (emails w ++ [data]) (logs w) (now w) (entropy w) in
    match sendEmail_outcome ext data with
    | None => (Return tt, w')
    | Some m => (Throw (Error m), w')
    end.

End Store.

(** ** UserService (user.service.ts) *)

Section UserService.

Variable ext : Collaborators.
(** the injected [userModel] and [jwtService] *)
Variable userModel : Schema.
Variable jwtService : JwtOptions.

Definition verificationRequest (savedUser : UserDocument) : EmailData :=
  {| mail_URL := Some ("http://localhost:3000/user/verify/"
                         ++ encodeURIComponent (_id savedUser));
     mail_name := username savedUser;
     mail_email := email savedUser;
     mail_subject := "Account Verification Required!";
     mail_template := "userVerificationRequest" |}.

Definition verificationSuccess (user : UserDocument) : EmailData :=
  {| mail_URL := None;
     mail_name := username user;
     mail_email := email user;
     mail_subject := "Account Verification Success!";
     mail_template := "accountVerified" |}.

(** The rethrow of [updateUser], [updateUserFiles] and
    [updateUserVerificationStatus]. *)
Definition rethrow_known {A} (error : Exception) : M A :=
  if instanceof_NotFoundException error || instanceof_BadRequestException error
  then throw error
  else throw (InternalServerErrorException (error_message error)).

Definition createNewUser (createUserDTO : CreateUserDto) : M SignedToken :=
  try_catch
    (n <- tick ;;
     let salt := bcrypt_genSalt ext 10 n in
     let hashedPassword := bcrypt_hash ext (dto_password createUserDTO) salt in
     user <- Model_new ext createUserDTO hashedPassword ;;
     savedUser <- Document_insert userModel user ;;
     let token := JwtService_sign jwtService (JObj [("id", JStr (_id savedUser))]) in
     let dataToEmail := verificationRequest savedUser in
     EmailService_sendEmail ext dataToEmail ;;;
     Logger_verbose ("New user created by Id -> " ++ _id savedUser) ;;;
     ret token)
    (fun error =>
       if is_duplicate_key error
       then throw (BadRequestException
                     "User with given email or username already exists")
       else throw (InternalServerErrorException (error_message error))).

Definition updateUser (userId : string) (updateUserDTO : UpdateUserDto)
    : M UserDocument :=
  try_catch
    (if negb (ObjectId_isValid ext userId)
     then throw (BadRequestException "Invalid user ID")
     else
       let objectId := ObjectId_new ext userId in
       updatedUser <- Model_findByIdAndUpdate objectId (SetFields updateUserDTO) ;;
       match updatedUser with
       | None => throw (NotFoundException "User not found")
       | Some u =>
           Logger_verbose ("User updated for -> " ++ objectId) ;;;
           ret u
       end)
    rethrow_known.

(** The result is the document found; it is an [option] only because the
    callers test it for [null]. *)
Definition getUser (query : Query) : M (option UserDocument) :=
  try_catch
    (user <- Model_findOne ext query ;;
     match user with
     | None => throw (NotFoundException "User not found")
     | Some u => ret (Some u)
     end)
    (fun error => throw (InternalServerErrorException (error_message error))).

Definition updateUserFiles (userId : string) (fileData : Json) : M unit :=
  try_catch
    (if negb (ObjectId_isValid ext userId)
     then throw (BadRequestException "Invalid user ID")
     else
       let objectId := ObjectId_new ext userId in
       Model_findByIdAndUpdate objectId (PushFile fileData) ;;;
       Logger_verbose ("User files updated for -> " ++ objectId))
    rethrow_known.

Definition updateUserVerificationStatus (userId : string) : M bool :=
  try_catch
    (found <- Model_findById ext userId ;;
     match found with
     | None => throw (NotFoundException "User not found")
     | Some user =>
         if isActive user
         then throw (BadRequestException "User is already verified")
         else
           let user := set_isActive true user in
           Document_save user ;;;
           let dataToEmail := verificationSuccess user in
           EmailService_sendEmail ext dataToEmail ;;;
           Logger_verbose ("User verified successfully & email sent to -> "
                             ++ _id user) ;;;
           ret true
     end)
    rethrow_known.

End UserService.

(** ** AuthService (auth.service.ts) *)

Definition stored_hash (u : UserDocument) : string := password u.

(** [!user] *)
Definition is_null {A} (x : option A) : bool :=
  match x with
  | Some _ => false
  | None => true
  end.

Record LoginResult : Type := { access_token : SignedToken }.

Section AuthService.

Variable ext : Collaborators.
(** the injected [usersService.getUser] and [jwtService] *)
Variable usersService_getUser : Query -> M (option UserDocument).
Variable jwtService : JwtOptions.

Definition validateUser (email password : string) : M (option UserDocument) :=
  user <- usersService_getUser (ByEmail email) ;;
  match user with
  | None => ret None
  | Some u =>
      let passwordValid := bcrypt_compare ext password (stored_hash u) in
      if is_null user
      then throw (NotAcceptableException "could not find the user")
      else if negb (is_null user) && passwordValid then ret user
      else ret None
  end.

Definition login (user : UserDocument) : M LoginResult :=
  let payload := JObj [("username", JStr (username user)); ("sub", JStr (_id user))] in
  ret {| access_token := JwtService_sign jwtService payload |}.

End AuthService.

(** ** UserController.getUserById (user.controller.ts) *)

(** Modelled from the spec: [ApiResponseHandler.successResponse]
    (src/utils/api-response-handler is not among the sources): "every
    client-facing response carries a success flag, a message, and a payload". *)
Record ApiResponse : Type := {
  success : bool;
  message : string;
  data : Json;
  statusCode : Z
}.

Definition successResponse (payload : Json) (msg : string) (status : Z) : ApiResponse :=
  {| success := true; message := msg; data := payload; statusCode := status |}.

(** The value of a JavaScript expression that holds a document or [null]. *)
Definition document_payload (user : option UserDocument) : Json :=
  match user with
  | Some u => toObject u
  | None => JNull
  end.

Section UserController.

Variable ext : Collaborators.
(** [ApiResponseHandler.errorResponse]: its code is not among the sources,
    so whether it throws or returns is left to the caller of this section.
    The handler does not return its value. *)
Variable errorResponse : Exception -> M unit.

(** [None] is the [undefined] a handler yields when its [catch] block
    falls through. *)
Definition getUserById (userId : string) : M (option ApiResponse) :=
  try_catch
    (Logger_verbose "Recieved a Get Request on getUserById" ;;;
     user <- getUser ext (ById userId) ;;
     ret (Some (successResponse (document_payload user)
                                "User fetched successfully" 200)))
    (fun error =>
       Logger_error ("Error occured in getUserById -> " ++ error_message error) ;;;
       errorResponse error ;;;
       ret None).

End UserController.

(** ** The wiring of the modules (user.module.ts, auth.module.ts) *)

Module UserModule.
Section Wired.
Variable ext : Collaborators.
Definition createNewUser := createNewUser ext UserSchema jwtModuleOptions.
Definition updateUser := updateUser ext.
Definition getUser := getUser ext.
Definition updateUserFiles := updateUserFiles ext.
Definition updateUserVerificationStatus := updateUserVerificationStatus ext.
End Wired.
End UserModule.

Module AuthModule.
Section Wired.
Variable ext : Collaborators.
Definition validateUser := validateUser ext (UserModule.getUser ext).
Definition login := login jwtModuleOptions.
End Wired.
End AuthModule.

(** ** A concrete set of collaborators

    Used to run the services on explicit inputs. *)

Module Sample.

Definition lower_hex_digit (n : nat) : ascii :=
  nth n (list_ascii_of_string "0123456789abcdef") "0"%char.

Fixpoint hex_of (width n : nat) : string :=
  match width with
  | O => EmptyString
  | S width' =>
      hex_of width' (n / 16) ++ String (lower_hex_digit (n mod 16)) EmptyString
  end.

Definition is_hex (c : ascii) : bool :=
  existsb (Ascii.eqb c) (list_ascii_of_string "0123456789abcdefABCDEF").

Definition isValid (id : string) : bool :=
  (String.length id =? 24)%nat && forallb is_hex (list_ascii_of_string id).

Definition salt_of (rounds : Z) (n : nat) : string :=
  "$2b$10$" ++ hex_of 4 n.

Definition hash (data salt : string) : string := salt ++ "#" ++ data.

Definition compare (data encrypted : string) : bool :=
  String.eqb encrypted (String.substring 0 11 encrypted ++ "#" ++ data).

Definition collaborators (outcome : EmailData -> option string) : Collaborators :=
  {| bcrypt_genSalt := salt_of;
     bcrypt_hash := hash;
     bcrypt_compare := compare;
     ObjectId_isValid := isValid;
     ObjectId_new := fun id => id;
     ObjectId_generate := hex_of 24;
     castErrorMessage := fun v => "Cast to ObjectId failed for value " ++ v;
     sendEmail_outcome := outcome |}.

(** an email service that delivers, and one whose transport is down *)
Definition delivering : Collaborators := collaborators (fun _ => None).
Definition failing : Collaborators :=
  collaborators (fun _ => Some "connect ECONNREFUSED 127.0.0.1:587").

Definition empty_world : World :=
  {| db := []; emails := []; logs := []; now := 1700000000000; entropy := 0%nat |}.

Definition alice_dto : CreateUserDto :=
  {| dto_username := "a"; dto_email := "a@x.com"; dto_password := "p1";
     dto__id := None; dto_files := None; dto_isActive := None;
     dto_createdAt := None |}.

Definition alice_id : ObjectId := "000000000000000000000001".

Definition alice : UserDocument :=
  {| _id := alice_id; username := "a"; email := "a@x.com";
     password := "$2b$10$0000#p1"; files := []; isActive := false;
     createdAt := 1700000000000 |}.

(** the world after [alice_dto] has signed up *)
Definition world_with_alice : World :=
  {| db := [alice]; emails := []; logs := []; now := 1700000000000;
     entropy := 2%nat |}.

(** a schema that asks for unique usernames and emails *)
Definition strict_schema : Schema :=
  {| prop_username := {| unique := true |}; prop_email := {| unique := true |} |}.

Definition bob_dto : CreateUserDto :=
  {| dto_username := "b"; dto_email := "b@x.com"; dto_password := "p2";
     dto__id := None; dto_files := None; dto_isActive := None;
     dto_createdAt := None |}.

(** a well-formed identifier that no account carries *)
Definition unknown_id : string := "000000000000000000000009".

(** an error response that throws what it is given *)
Definition rethrow (e : Exception) : M unit := throw e.

(** an error response that formats the error and returns *)
Definition format_only (e : Exception) : M unit := ret tt.

(** the metadata multer attaches to an uploaded file *)
Definition report_file : Json :=
  JObj [("originalname", JStr "report.final.pdf"); ("size", JNum 1024)].

(** an object-storage client that stores the file, and one that answers
    without a [Location] *)
Definition aws_storing (file : Json) : M (option Json) :=
  ret (Some (JObj [("Location", JStr "https://bucket.s3.amazonaws.com/report");
                   ("Key", JStr "report")])).
Definition aws_without_location (file : Json) : M (option Json) :=
  ret (Some (JObj [("Key", JStr "report")])).

(** the sample account once redeemed *)
Definition alice_verified : UserDocument := set_isActive true alice.

(** a bcrypt whose [compare] accepts every hash [hash] makes of the data,
    under any salt *)
Fixpoint ends_with (t s : string) : bool :=
  String.eqb s t
  || match s with
     | EmptyString => false
     | String _ rest => ends_with t rest
     end.

Definition compare_any_salt (data encrypted : string) : bool :=
  ends_with ("#" ++ data) encrypted.

Definition accepting : Collaborators :=
  {| bcrypt_genSalt := salt_of;
     bcrypt_hash := hash;
     bcrypt_compare := compare_any_salt;
     ObjectId_isValid := isValid;
     ObjectId_new := fun id => id;
     ObjectId_generate := hex_of 24;
     castErrorMessage := fun v => "Cast to ObjectId failed for value " ++ v;
     sendEmail_outcome := fun _ => None |}.

Definition rename_dto : UpdateUserDto :=
  {| upd_username := Some "alice"; upd_email := None; upd_password := None;
     upd_files := None; upd_isActive := None; upd_createdAt := None |}.




Definition contact_dto : UpdateUserDto :=
  {| upd_username := None; upd_email := Some "alice@x.com";
     upd_password := Some "p3";
     upd_files := None; upd_isActive := None; upd_createdAt := None |}.



(** an identifier that is not an ObjectId *)
Definition malformed_id : string := "42".

End Sample.

(** ** Runs and observations *)


(** Does a result carry the exception of the second [!user] test? *)
Definition raises_NotAcceptable {A} (r : Result A) : bool :=
  match r with
  | Throw (NotAcceptableException _) => true
  | _ => false
  end.

Section Observations.

Variable ext : Collaborators.

(** What [findOne] yields, as a pure function of the collection: the cast
    of an [_id] filter may fail, a filter on [email] cannot. *)
Definition lookup (q : Query) (docs : list UserDocument) : Result (option UserDocument) :=
  match q with
  | ByEmail e => Return (find (has_email e) docs)
  | ById userId =>
      if ObjectId_isValid ext userId
      then Return (find_by_id (ObjectId_new ext userId) docs)
      else Throw (CastError (castErrorMessage ext userId))
  end.

(** The document [createNewUser] builds: the salt takes the first draw of
    entropy and the identifier, unless the body carries one, the second. *)
Definition new_document (dto : CreateUserDto) (w : World) : UserDocument :=
  mkUser (or_else (dto__id dto) (ObjectId_generate ext (S (entropy w))))
         (dto_username dto) (dto_email dto)
         (bcrypt_hash ext (dto_password dto) (bcrypt_genSalt ext 10 (entropy w)))
         (or_else (dto_files dto) default_files)
         (or_else (dto_isActive dto) default_isActive)
         (or_else (dto_createdAt dto) (now w)).

Definition verification_token (jwt : JwtOptions) (u : UserDocument) : SignedToken :=
  JwtService_sign jwt (JObj [("id", JStr (_id u))]).

(** The world after the write of a redemption and the call to the email
    service. *)
Definition verified_world (user : UserDocument) (w : World) : World :=
  mkWorld (update_first (_id user) (fun _ => user) (db w))
          (emails w ++ [verificationSuccess user])%list
          (logs w) (now w) (entropy w).





End Observations.

(** ** The file name of an upload to the server (user.controller.ts) *)

(** [s.split(sep)] for a separator of one character: at least one segment,
    possibly empty ones. *)
Fixpoint split_on (sep : ascii) (s : string) : list string :=
  match s with
  | EmptyString => [EmptyString]
  | String c rest =>
      if Ascii.eqb c sep then EmptyString :: split_on sep rest
      else
        match split_on sep rest with
        | seg :: segs => String c seg :: segs
        | [] => [String c EmptyString]
        end
  end.

(** [xs[xs.length - 1]] inside a template literal: an empty array would
    print as undefined. *)
Definition Array_last (xs : list string) : string := last xs "undefined".

(** A non-negative integer below 10^21 concatenated to a string. *)
Definition Number_toString (n : N) : string := NilZero.string_of_uint (N.to_uint n).

(** The [filename] callback of [diskStorage] in [uploadFileToServer];
    [dateNow] is [Date.now()] and [random] is
    [Math.round(Math.random() * 1e9)]. *)
Definition diskStorage_filename (dateNow random : N) (originalname : string) : string :=
  let uniqueSuffix := Number_toString dateNow ++ "-" ++ Number_toString random in
  let nameTab := split_on "."%char originalname in
  let subArray := removelast nameTab in
  let originalName := String.concat "" subArray in
  let ext := "." ++ Array_last nameTab in
  originalName ++ "-" ++ uniqueSuffix ++ ext.

Fixpoint count_char (c : ascii) (s : string) : nat :=
  match s with
  | EmptyString => O
  | String x rest => ((if Ascii.eqb x c then 1 else 0) + count_char c rest)%nat
  end.

(** ** The other handlers of UserController (user.controller.ts) *)

(** The truth value JavaScript gives to [obj.key]. *)
Definition js_truthy (v : option Json) : bool :=
  match v with
  | None => false
  | Some JNull => false
  | Some (JBool b) => b
  | Some (JNum n) => negb (n =? 0)
  | Some (JStr s) => negb (String.eqb s "")
  | Some (JArr _) => true
  | Some (JObj _) => true
  end.

(** A value that may be [undefined], as a payload. *)
Definition optional_payload (v : option Json) : Json :=
  match v with
  | Some j => j
  | None => JNull
  end.

Definition is_return {A} (r : Result A) : bool :=
  match r with
  | Return _ => true
  | Throw _ => false
  end.

(** The world once a line has been logged. *)
Definition logged (line : string) (w : World) : World :=
  mkWorld (db w) (emails w) (logs w ++ [line]) (now w) (entropy w).

Module Controller.
Section Handlers.

Variable ext : Collaborators.
(** [ApiResponseHandler.errorResponse], as in [getUserById] *)
Variable errorResponse : Exception -> M unit.
(** [awsService.uploadFile]: src/services/aws/aws.service is not among the
    sources; the handler tests its result against [undefined]. *)
Variable awsService_uploadFile : Json -> M (option Json).

Definition uploadFileToS3 (file : Json) (userId : string) : M (option ApiResponse) :=
  try_catch
    (Logger_verbose "Recieved a Post Request on uploadFileToS3" ;;;
     responseFromAWS <- awsService_uploadFile file ;;
     match responseFromAWS with
     | Some r =>
         if js_truthy (get_field "Location" r)
         then updateUserFiles ext userId r
         else ret tt
     | None => ret tt
     end ;;;
     ret (Some (successResponse (optional_payload responseFromAWS)
                                "File uploaded successfully" 200)))
    (fun error =>
       Logger_error ("Error occured in uploadFileToS3 -> " ++ error_message error) ;;;
       errorResponse error ;;;
       ret None).

(** [filename] is [req.filename], set by the [filename] callback of the
    interceptor when the request carries a file. *)
Definition uploadFileToServer (file : Json) (filename : option string)
    (userId : string) : M (option ApiResponse) :=
  try_catch
    (Logger_verbose "Recieved a Post Request on uploadFileToServer" ;;;
     match filename with
     | Some _ => updateUserFiles ext userId file
     | None => ret tt
     end ;;;
     ret (Some (successResponse file "File uploaded successfully" 200)))
    (fun error =>
       Logger_error ("Error occured in uploadFileToServer -> " ++ error_message error) ;;;
       errorResponse error ;;;
       ret None).

(** [Logger.error] is given the message as a second argument here; the
    line logged is the first. *)
Definition updateUser (updateUserDTO : UpdateUserDto) (userId : string)
    : M (option ApiResponse) :=
  try_catch
    (Logger_verbose "Recieved a Post Request on updateUser" ;;;
     updatedUser <- updateUser ext userId updateUserDTO ;;
     ret (Some (successResponse (toObject updatedUser)
                                "User updated successfully" 201)))
    (fun error =>
       Logger_error "Error occured in updateUser controller" ;;;
       errorResponse error ;;;
       ret None).

Definition verifyUser (userId : string) : M (option ApiResponse) :=
  try_catch
    (Logger_verbose "Recieved a Post Request on verifyUser" ;;;
     updateUserVerificationStatus ext userId ;;;
     ret (Some (successResponse (JObj []) "User verified successfully" 200)))
    (fun error =>
       Logger_error ("Error occured in verifyUser -> " ++ error_message error) ;;;
       errorResponse error ;;;
       ret None).

End Handlers.
End Controller.

(** * Properties *)

Ltac unfold_monad :=
  unfold try_catch, bind, ret, throw, get_world, set_db, tick,
    Logger_verbose, Logger_error, Logger_write in *.

(** ** Lookups *)

Section LookupFacts.

Variable ext : Collaborators.


Lemma Model_findOne_lookup (q : Query) (w : World) :
  Model_findOne ext q w = (lookup ext q (db w), w).
Proof.
  destruct q as [e | userId]; unfold Model_findOne, lookup, castObjectId.
  - reflexivity.
  - unfold_monad. destruct (ObjectId_isValid ext userId); reflexivity.
Qed.

(** [getUser] reads and never writes; every failure, the missing user
    included, leaves it as an InternalServerErrorException. *)
Lemma getUser_eval (q : Query) (w : World) :
  getUser ext q w =
  (match lookup ext q (db w) with
   | Return (Some u) => Return (Some u)
   | Return None => Throw (InternalServerErrorException "User not found")
   | Throw e => Throw (InternalServerErrorException (error_message e))
   end, w).
Proof.
  unfold getUser, try_catch, bind at 1. rewrite Model_findOne_lookup.
  destruct (lookup ext q (db w)) as [[u|]|e]; reflexivity.
Qed.

End LookupFacts.


Section Credentials.

Variable ext : Collaborators.

(** C1.  What [validateUser] does on every collection and every
    (email, password): the user comes back exactly when a document with
    that email exists and bcrypt accepts the password against its stored
    hash; a wrong password yields [null]; but an unknown email does not
    yield [null]: the NotFoundException of [getUser] is caught by
    [getUser]'s own handler and leaves as an InternalServerErrorException
    with the message "User not found", so the two causes of failure are
    told apart by the caller. *)
Theorem validateUser_eval (email password : string) (w : World) :
  AuthModule.validateUser ext email password w =
  (match find (has_email email) (db w) with
   | None => Throw (InternalServerErrorException "User not found")
   | Some u =>
       if bcrypt_compare ext password (stored_hash u)
       then Return (Some u)
       else Return None
   end, w).
Proof.
  unfold AuthModule.validateUser, validateUser, UserModule.getUser, bind.
  rewrite getUser_eval. simpl.
  destruct (find (has_email email) (db w)) as [u|]; [|reflexivity].
  simpl. destruct (bcrypt_compare ext password (stored_hash u)); reflexivity.
Qed.

(** [login] signs {username, sub} with the options of the module. *)
Lemma login_eval (user : UserDocument) (w : World) :
  exists t, AuthModule.login user w = (Return {| access_token := t |}, w)
    /\ JwtService_verify jwtModuleOptions t
       = Some (JObj [("username", JStr (username user)); ("sub", JStr (_id user))]).
Proof. eexists; split; reflexivity. Qed.

(** Whatever lookup is injected, [validateUser] raises an exception only
    when the lookup did, and then the same one. *)
Lemma validateUser_throws_only_lookup
    (getUser : Query -> M (option UserDocument)) (email password : string)
    (w : World) (e : Exception) :
  fst (validateUser ext getUser email password w) = Throw e ->
  fst (getUser (ByEmail email) w) = Throw e.
Proof.
  unfold validateUser, bind.
  destruct (getUser (ByEmail email) w) as [[[u|]|e'] w']; simpl.
  - destruct (bcrypt_compare ext password (stored_hash u)); discriminate.
  - unfold ret; simpl; discriminate.
  - trivial.
Qed.

(** C9.  The NotAcceptableException('could not find the user') of
    [validateUser] is never raised: for every (email, password) and every
    collection the wired service does not raise it, and for any injected
    lookup [validateUser] raises it exactly when the lookup itself did. *)
Theorem validateUser_NotAcceptable_unreachable (email password : string) (w : World) :
  raises_NotAcceptable (fst (AuthModule.validateUser ext email password w)) = false
  /\ forall getUser : Query -> M (option UserDocument),
       raises_NotAcceptable (fst (validateUser ext getUser email password w))
       = raises_NotAcceptable (fst (getUser (ByEmail email) w)).
Proof.
  split.
  - rewrite validateUser_eval; simpl.
    destruct (find (has_email email) (db w)) as [u|]; [|reflexivity].
    destruct (bcrypt_compare ext password (stored_hash u)); reflexivity.
  - intros getUser. unfold validateUser, bind.
    destruct (getUser (ByEmail email) w) as [[[u|]|e'] w']; simpl.
    + destruct (bcrypt_compare ext password (stored_hash u)); reflexivity.
    + reflexivity.
    + reflexivity.
Qed.

End Credentials.

(** ** The collection under [update_first] *)

Lemma find_by_id_has_id (oid : ObjectId) (docs : list UserDocument) (u : UserDocument) :
  find_by_id oid docs = Some u -> _id u = oid.
Proof.
  intros H. apply find_some in H. destruct H as [_ H].
  unfold has_id in H. now apply String.eqb_eq in H.
Qed.

Lemma update_first_absent (oid : ObjectId) (f : UserDocument -> UserDocument)
    (docs : list UserDocument) :
  find_by_id oid docs = None -> update_first oid f docs = docs.
Proof.
  induction docs as [|u rest IH]; simpl; [reflexivity|].
  destruct (has_id oid u); [discriminate|].
  intros H. now rewrite IH.
Qed.

Lemma update_first_length (oid : ObjectId) (f : UserDocument -> UserDocument)
    (docs : list UserDocument) :
  length (update_first oid f docs) = length docs.
Proof.
  induction docs as [|u rest IH]; simpl; [reflexivity|].
  destruct (has_id oid u); simpl; congruence.
Qed.

(** Looking a document up after an update that keeps identifiers. *)
Lemma find_update_first (oid i : ObjectId) (f : UserDocument -> UserDocument)
    (docs : list UserDocument) :
  (forall u, has_id oid u = true -> _id (f u) = _id u) ->
  find_by_id i (update_first oid f docs) =
  if String.eqb i oid then option_map f (find_by_id i docs) else find_by_id i docs.
Proof.
  intros Hid. induction docs as [|u rest IH]; simpl.
  - destruct (String.eqb i oid); reflexivity.
  - destruct (has_id oid u) eqn:Hu; simpl.
    + unfold has_id in *. rewrite (Hid u Hu).
      apply String.eqb_eq in Hu. rewrite Hu.
      rewrite (String.eqb_sym i oid).
      destruct (String.eqb oid i) eqn:Hi; [reflexivity|].
      destruct (String.eqb i oid); reflexivity.
    + destruct (has_id i u) eqn:Hi.
      * unfold has_id in *. apply String.eqb_eq in Hi. subst i.
        rewrite Hu. reflexivity.
      * exact IH.
Qed.


(** A document saved under its own identifier is the one found next. *)
Lemma find_after_save (oid : ObjectId) (docs : list UserDocument) (u v : UserDocument) :
  find_by_id oid docs = Some u ->
  _id v = oid ->
  find_by_id oid (update_first (_id v) (fun _ => v) docs) = Some v.
Proof.
  intros Hf Hid. rewrite Hid, find_update_first.
  - now rewrite String.eqb_refl, Hf.
  - intros x Hx. unfold has_id in Hx. apply String.eqb_eq in Hx. congruence.
Qed.

(** ** The services, evaluated *)

Section ServiceFacts.

Variable ext : Collaborators.


Lemma createNewUser_eval (sch : Schema) (jwt : JwtOptions)
    (dto : CreateUserDto) (w : World) :
  createNewUser ext sch jwt dto w =
  let doc := new_document ext dto w in
  let e2 := S (S (entropy w)) in
  if violates_unique sch doc (db w)
  then (Throw (BadRequestException
                 "User with given email or username already exists"),
        mkWorld (db w) (emails w) (logs w) (now w) e2)
  else
    let sent := (emails w ++ [verificationRequest doc])%list in
    match sendEmail_outcome ext (verificationRequest doc) with
    | None =>
        (Return (verification_token jwt doc),
         mkWorld (db w ++ [doc])%list sent
                 (logs w ++ [("New user created by Id -> " ++ _id doc)%string])%list
                 (now w) e2)
    | Some m =>
        (Throw (InternalServerErrorException m),
         mkWorld (db w ++ [doc])%list sent (logs w) (now w) e2)
    end.
Proof.
  unfold createNewUser, Model_new, Document_insert, EmailService_sendEmail.
  unfold_monad. simpl. fold (new_document ext dto w).
  destruct (violates_unique sch (new_document ext dto w) (db w)); simpl; [reflexivity|].
  destruct (sendEmail_outcome ext (verificationRequest (new_document ext dto w)));
    reflexivity.
Qed.

Lemma updateUserFiles_eval (userId : string) (fileData : Json) (w : World) :
  updateUserFiles ext userId fileData w =
  if ObjectId_isValid ext userId
  then
    let objectId := ObjectId_new ext userId in
    (Return tt,
     mkWorld (update_first objectId (apply_update (PushFile fileData)) (db w))
             (emails w)
             (logs w ++ [("User files updated for -> " ++ objectId)%string])%list
             (now w) (entropy w))
  else (Throw (BadRequestException "Invalid user ID"), w).
Proof.
  unfold updateUserFiles, Model_findByIdAndUpdate. unfold_monad.
  destruct (ObjectId_isValid ext userId); simpl; [|reflexivity].
  destruct (find_by_id (ObjectId_new ext userId) (db w)) eqn:Hf; simpl.
  - reflexivity.
  - now rewrite update_first_absent.
Qed.

Lemma updateUser_eval (userId : string) (dto : UpdateUserDto) (w : World) :
  updateUser ext userId dto w =
  if ObjectId_isValid ext userId
  then
    let objectId := ObjectId_new ext userId in
    match find_by_id objectId (db w) with
    | None => (Throw (NotFoundException "User not found"), w)
    | Some u =>
        (Return (apply_update (SetFields dto) u),
         mkWorld (update_first objectId (apply_update (SetFields dto)) (db w))
                 (emails w)
                 (logs w ++ [("User updated for -> " ++ objectId)%string])%list
                 (now w) (entropy w))
    end
  else (Throw (BadRequestException "Invalid user ID"), w).
Proof.
  unfold updateUser, Model_findByIdAndUpdate. unfold_monad.
  destruct (ObjectId_isValid ext userId); simpl; [|reflexivity].
  destruct (find_by_id (ObjectId_new ext userId) (db w)); reflexivity.
Qed.


Lemma updateUserVerificationStatus_eval (userId : string) (w : World) :
  updateUserVerificationStatus ext userId w =
  match lookup ext (ById userId) (db w) with
  | Throw e => (Throw (InternalServerErrorException (error_message e)), w)
  | Return None => (Throw (NotFoundException "User not found"), w)
  | Return (Some found) =>
      if isActive found
      then (Throw (BadRequestException "User is already verified"), w)
      else
        let user := set_isActive true found in
        let w1 := verified_world user w in
        match sendEmail_outcome ext (verificationSuccess user) with
        | None =>
            (Return true,
             mkWorld (db w1) (emails w1)
               (logs w1 ++ [("User verified successfully & email sent to -> "
                               ++ _id user)%string])%list
               (now w1) (entropy w1))
        | Some m => (Throw (InternalServerErrorException m), w1)
        end
  end.
Proof.
  unfold updateUserVerificationStatus, Model_findById, try_catch, bind at 1.
  rewrite Model_findOne_lookup. unfold lookup.
  destruct (ObjectId_isValid ext userId); [|reflexivity].
  destruct (find_by_id (ObjectId_new ext userId) (db w)) as [found|]; simpl;
    [|reflexivity].
  destruct (isActive found); simpl; [reflexivity|].
  unfold Document_save, EmailService_sendEmail, verified_world.
  unfold_monad. simpl.
  destruct (sendEmail_outcome ext (verificationSuccess (set_isActive true found)));
    reflexivity.
Qed.

End ServiceFacts.

(** ** Verification flow *)

Section Verification.

Variable ext : Collaborators.


(** On an account that is already active a redemption fails and leaves
    the whole world as it is. *)
Lemma redeem_active_rejected (userId : string) (w : World) (u : UserDocument) :
  ObjectId_isValid ext userId = true ->
  find_by_id (ObjectId_new ext userId) (db w) = Some u ->
  isActive u = true ->
  updateUserVerificationStatus ext userId w
  = (Throw (BadRequestException "User is already verified"), w).
Proof.
  intros Hv Hf Ha. rewrite updateUserVerificationStatus_eval.
  unfold lookup. rewrite Hv, Hf, Ha. reflexivity.
Qed.


End Verification.

(** ** Attachments *)

Section Attachments.

Variable ext : Collaborators.

(** C10.  For a well-formed id that matches no stored account
    [updateUserFiles] returns normally (void): the [null] that
    [findByIdAndUpdate] yields is not inspected, no NotFoundException is
    raised, and the collection is left as it was. *)
Theorem updateUserFiles_unknown_id_succeeds
    (userId : string) (fileData : Json) (w : World) :
  ObjectId_isValid ext userId = true ->
  find_by_id (ObjectId_new ext userId) (db w) = None ->
  fst (updateUserFiles ext userId fileData w) = Return tt
  /\ db (snd (updateUserFiles ext userId fileData w)) = db w
  /\ emails (snd (updateUserFiles ext userId fileData w)) = emails w.
Proof.
  intros Hv Hf. rewrite updateUserFiles_eval, Hv. simpl.
  rewrite (update_first_absent _ _ _ Hf). auto.
Qed.

End Attachments.

Section AppendOnly.

Variable ext : Collaborators.









End AppendOnly.

(** ** Signup *)

Section Signup.

Variable ext : Collaborators.


(** The schema of the repository declares no unique index: the only one
    left is the store's own, on [_id]. *)
Lemma UserSchema_only_id_index (doc : UserDocument) (docs : list UserDocument) :
  violates_unique UserSchema doc docs = existsb (has_id (_id doc)) docs.
Proof.
  unfold violates_unique, UserSchema; simpl.
  induction docs as [|x rest IH]; simpl; [reflexivity|].
  rewrite IH. now rewrite !orb_false_r.
Qed.

(** When the store does signal a duplicate key, the handler of
    [createNewUser] reports it as a conflict and nothing is stored. *)
Lemma createNewUser_duplicate_key (sch : Schema) (jwt : JwtOptions)
    (dto : CreateUserDto) (w : World) :
  violates_unique sch (new_document ext dto w) (db w) = true ->
  fst (createNewUser ext sch jwt dto w)
  = Throw (BadRequestException "User with given email or username already exists")
  /\ db (snd (createNewUser ext sch jwt dto w)) = db w
  /\ emails (snd (createNewUser ext sch jwt dto w)) = emails w.
Proof.
  intros Hdup. rewrite createNewUser_eval. cbv zeta. rewrite Hdup. auto.
Qed.


(** C6.  With the schema of the repository the only unique index is the
    store's own on [_id], so [createNewUser] takes the duplicate-key branch
    for no email and no username: whatever accounts are stored, also one
    with the same email or username, the new document is inserted, and the
    call returns a token or fails on the email, never with the conflict
    BadRequestException, unless the new document would carry an [_id] that
    is already stored. *)
Theorem signup_accepts_duplicates (dto : CreateUserDto) (w : World) :
  UserModule.createNewUser ext dto w =
  let doc := new_document ext dto w in
  let sent := (emails w ++ [verificationRequest doc])%list in
  if existsb (has_id (_id doc)) (db w)
  then (Throw (BadRequestException
                 "User with given email or username already exists"),
        mkWorld (db w) (emails w) (logs w) (now w) (S (S (entropy w))))
  else
    match sendEmail_outcome ext (verificationRequest doc) with
    | None =>
        (Return (verification_token jwtModuleOptions doc),
         mkWorld (db w ++ [doc])%list sent
                 (logs w ++ [("New user created by Id -> " ++ _id doc)%string])%list
                 (now w) (S (S (entropy w))))
    | Some m =>
        (Throw (InternalServerErrorException m),
         mkWorld (db w ++ [doc])%list sent (logs w) (now w) (S (S (entropy w))))
    end.
Proof.
  unfold UserModule.createNewUser. rewrite createNewUser_eval. cbv zeta.
  now rewrite UserSchema_only_id_index.
Qed.

(** C3, as the code has it.  When the write succeeds and the email service
    then rejects, nothing is rolled back (the new account stays stored; the
    redeemed account stays active), but the failure is not swallowed:
    signup, on every collection, and redemption, of every pending account,
    raise an InternalServerErrorException that carries the message of the
    email error. *)
Theorem email_failure_propagates_without_rollback :
  (forall (sch : Schema) (jwt : JwtOptions) (dto : CreateUserDto) (w : World)
          (m : string),
      violates_unique sch (new_document ext dto w) (db w) = false ->
      sendEmail_outcome ext
        {| mail_URL := Some ("http://localhost:3000/user/verify/"
                               ++ encodeURIComponent (_id (new_document ext dto w)));
           mail_name := dto_username dto;
           mail_email := dto_email dto;
           mail_subject := "Account Verification Required!";
           mail_template := "userVerificationRequest" |} = Some m ->
      let signup := createNewUser ext sch jwt dto w in
      fst signup = Throw (InternalServerErrorException m)
      /\ db (snd signup) = (db w ++ [new_document ext dto w])%list)
  /\ (forall (userId : string) (u : UserDocument) (w : World) (m : string),
        ObjectId_isValid ext userId = true ->
        find_by_id (ObjectId_new ext userId) (db w) = Some u ->
        isActive u = false ->
        sendEmail_outcome ext
          {| mail_URL := None;
             mail_name := username u;
             mail_email := email u;
             mail_subject := "Account Verification Success!";
             mail_template := "accountVerified" |} = Some m ->
        let redeem := updateUserVerificationStatus ext userId w in
        fst redeem = Throw (InternalServerErrorException m)
        /\ find_by_id (ObjectId_new ext userId) (db (snd redeem))
           = Some (mkUser (_id u) (username u) (email u) (password u) (files u)
                          true (createdAt u))).
Proof.
  split.
  - intros sch jwt dto w m Hok Hmail. cbv zeta.
    change {| mail_URL := _; mail_name := dto_username dto;
              mail_email := dto_email dto; mail_subject := _;
              mail_template := _ |}
      with (verificationRequest (new_document ext dto w)) in Hmail.
    rewrite createNewUser_eval. cbv zeta. rewrite Hok, Hmail. split; reflexivity.
  - intros userId u w m Hv Hf Ha Hmail. cbv zeta.
    change {| mail_URL := None; mail_name := username u; mail_email := email u;
              mail_subject := _; mail_template := _ |}
      with (verificationSuccess (set_isActive true u)) in Hmail.
    change (mkUser (_id u) (username u) (email u) (password u) (files u) true
              (createdAt u)) with (set_isActive true u).
    rewrite updateUserVerificationStatus_eval. cbv zeta.
    unfold lookup. rewrite Hv, Hf, Ha, Hmail. simpl.
    split; [reflexivity|].
    apply (@find_after_save (ObjectId_new ext userId) (db w) u
             (set_isActive true u) Hf).
    simpl. now apply find_by_id_has_id in Hf.
Qed.

End Signup.

(** ** Reading an account *)

Section GetAccount.

Variable ext : Collaborators.
Variable errorResponse : Exception -> M unit.

(** C4, as the code has it.  For a stored account [getUser] returns the
    document as stored and [getUserById] hands all of it to the response:
    the payload has a [password] field, holding the stored hash. *)
Theorem getUserById_returns_stored_document
    (userId : string) (w : World) (u : UserDocument) :
  ObjectId_isValid ext userId = true ->
  find_by_id (ObjectId_new ext userId) (db w) = Some u ->
  getUser ext (ById userId) w = (Return (Some u), w)
  /\ (exists w',
        getUserById ext errorResponse userId w
        = (Return (Some (successResponse (toObject u)
                                         "User fetched successfully" 200)), w')
        /\ db w' = db w)
  /\ get_field "password" (toObject u) = Some (JStr (password u)).
Proof.
  intros Hv Hf.
  assert (Hget : forall w0, db w0 = db w ->
                            getUser ext (ById userId) w0 = (Return (Some u), w0)).
  { intros w0 Hdb. rewrite getUser_eval. unfold lookup.
    now rewrite Hv, Hdb, Hf. }
  split; [now apply Hget|]. split; [|reflexivity].
  unfold getUserById, try_catch, bind, Logger_verbose, Logger_write.
  rewrite Hget by reflexivity. simpl.
  eexists; split; reflexivity.
Qed.

(** C7.  For a well-formed id that matches no account, the
    NotFoundException raised inside [getUser] is caught by [getUser]'s own
    handler and replaced: the caller receives an
    InternalServerErrorException (status 500, not 404) with the message
    "User not found", and this is the exception [getUserById] passes to
    the error response. *)
Theorem getUser_missing_account_is_internal_error (userId : string) (w : World) :
  ObjectId_isValid ext userId = true ->
  find_by_id (ObjectId_new ext userId) (db w) = None ->
  getUser ext (ById userId) w
  = (Throw (InternalServerErrorException "User not found"), w)
  /\ http_status (InternalServerErrorException "User not found") = 500
  /\ getUserById ext errorResponse userId w
     = (errorResponse (InternalServerErrorException "User not found") ;;;
        ret None)
         (mkWorld (db w) (emails w)
            (logs w ++ ["Recieved a Get Request on getUserById";
                        "Error occured in getUserById -> User not found"])%list
            (now w) (entropy w)).
Proof.
  intros Hv Hf.
  assert (Hget : forall w0, db w0 = db w ->
            getUser ext (ById userId) w0
            = (Throw (InternalServerErrorException "User not found"), w0)).
  { intros w0 Hdb. rewrite getUser_eval. unfold lookup.
    now rewrite Hv, Hdb, Hf. }
  split; [now apply Hget|]. split; [reflexivity|].
  unfold getUserById, try_catch, bind at 1 2, Logger_verbose, Logger_write.
  rewrite Hget by reflexivity.
  unfold Logger_error, Logger_write, bind. simpl.
  rewrite <- app_assoc. reflexivity.
Qed.

End GetAccount.

(** ** The properties on explicit requests *)



(** The three outcomes of a credential check on a collection holding one
    account: the user, [null], and an InternalServerErrorException. *)
Example validateUser_three_outcomes :
  AuthModule.validateUser Sample.delivering "a@x.com" "p1" Sample.world_with_alice
  = (Return (Some Sample.alice), Sample.world_with_alice)
  /\ AuthModule.validateUser Sample.delivering "a@x.com" "wrong" Sample.world_with_alice
     = (Return None, Sample.world_with_alice)
  /\ AuthModule.validateUser Sample.delivering "b@x.com" "p1" Sample.world_with_alice
     = (Throw (InternalServerErrorException "User not found"), Sample.world_with_alice).
Proof. repeat split. Qed.

(** Signing up twice with the same input stores two accounts with the same
    email and username. *)
Example signup_twice_stores_two_accounts :
  let r := UserModule.createNewUser Sample.delivering Sample.alice_dto
             Sample.world_with_alice in
  fst r = Return (verification_token jwtModuleOptions
                    (new_document Sample.delivering Sample.alice_dto
                       Sample.world_with_alice))
  /\ map email (db (snd r)) = ["a@x.com"; "a@x.com"]
  /\ map username (db (snd r)) = ["a"; "a"]
  /\ map _id (db (snd r)) = ["000000000000000000000001"; "000000000000000000000003"].
Proof. repeat split. Qed.

(** With a schema that declares the unique indexes, the same request is
    rejected as a conflict. *)
Example signup_twice_rejected_under_unique_indexes :
  createNewUser Sample.delivering Sample.strict_schema jwtModuleOptions Sample.alice_dto
    Sample.world_with_alice
  = (Throw (BadRequestException "User with given email or username already exists"),
     mkWorld [Sample.alice] [] [] 1700000000000 4).
Proof. reflexivity. Qed.


Lemma updateUserFiles_unknown_id_succeeds_witness :
  fst (updateUserFiles Sample.delivering Sample.unknown_id (JStr "report.pdf")
         Sample.world_with_alice) = Return tt
  /\ db (snd (updateUserFiles Sample.delivering Sample.unknown_id (JStr "report.pdf")
                Sample.world_with_alice)) = [Sample.alice].
Proof.
  destruct (@updateUserFiles_unknown_id_succeeds Sample.delivering Sample.unknown_id
              (JStr "report.pdf") Sample.world_with_alice eq_refl eq_refl)
    as (H1 & H2 & _).
  split; [exact H1 | exact H2].
Defined.





Lemma email_failure_propagates_without_rollback_witness :
  let signup := createNewUser Sample.failing Sample.strict_schema jwtModuleOptions
                  Sample.alice_dto Sample.empty_world in
  let redeem := updateUserVerificationStatus Sample.failing Sample.alice_id
                  Sample.world_with_alice in
  (fst signup
   = Throw (InternalServerErrorException "connect ECONNREFUSED 127.0.0.1:587")
   /\ db (snd signup) = [Sample.alice])
  /\ (fst redeem
      = Throw (InternalServerErrorException "connect ECONNREFUSED 127.0.0.1:587")
      /\ find_by_id Sample.alice_id (db (snd redeem))
         = Some (set_isActive true Sample.alice)).
Proof.
  destruct (@email_failure_propagates_without_rollback Sample.failing)
    as [Hsignup Hredeem].
  split.
  - exact (Hsignup Sample.strict_schema jwtModuleOptions Sample.alice_dto
             Sample.empty_world _ eq_refl eq_refl).
  - exact (Hredeem Sample.alice_id Sample.alice Sample.world_with_alice _
             eq_refl eq_refl eq_refl eq_refl).
Defined.

(** C3 as stated fails: the insert and the state write succeed, the email
    service rejects, and neither call returns. *)
Lemma email_failure_swallowed_counterexample :
  let signup := UserModule.createNewUser Sample.failing Sample.alice_dto
                  Sample.empty_world in
  let redeem := UserModule.updateUserVerificationStatus Sample.failing
                  Sample.alice_id Sample.world_with_alice in
  db (snd signup) = [Sample.alice]
  /\ find_by_id Sample.alice_id (db (snd redeem)) = Some (set_isActive true Sample.alice)
  /\ ~ (exists token, fst signup = Return token)
  /\ ~ (exists ok, fst redeem = Return ok).
Proof.
  cbv zeta. repeat split.
  - intros [token H]. vm_compute in H. discriminate.
  - intros [ok H]. vm_compute in H. discriminate.
Qed.

Lemma getUserById_returns_stored_document_witness :
  fst (getUserById Sample.delivering Sample.rethrow Sample.alice_id Sample.world_with_alice)
  = Return (Some (successResponse (toObject Sample.alice)
                                  "User fetched successfully" 200))
  /\ get_field "password" (toObject Sample.alice) = Some (JStr "$2b$10$0000#p1").
Proof.
  destruct (@getUserById_returns_stored_document Sample.delivering Sample.rethrow
              Sample.alice_id Sample.world_with_alice Sample.alice eq_refl eq_refl)
    as (_ & (w' & H2 & _) & H3).
  split; [exact (f_equal fst H2) | exact H3].
Defined.

(** C4 as stated fails: the payload returned for a stored account has a
    [password] field. *)
Lemma getAccount_excludes_password_counterexample :
  ~ (forall resp,
       fst (getUserById Sample.delivering Sample.rethrow Sample.alice_id
              Sample.world_with_alice) = Return (Some resp) ->
       has_field "password" (data resp) = false).
Proof.
  intros H.
  specialize (H (successResponse (toObject Sample.alice)
                   "User fetched successfully" 200) eq_refl).
  vm_compute in H. discriminate.
Qed.

Lemma getUser_missing_account_is_internal_error_witness :
  getUser Sample.delivering (ById Sample.unknown_id) Sample.world_with_alice
  = (Throw (InternalServerErrorException "User not found"), Sample.world_with_alice)
  /\ fst (getUserById Sample.delivering Sample.rethrow Sample.unknown_id Sample.world_with_alice)
     = Throw (InternalServerErrorException "User not found").
Proof.
  destruct (@getUser_missing_account_is_internal_error Sample.delivering Sample.rethrow
              Sample.unknown_id Sample.world_with_alice eq_refl eq_refl)
    as (H1 & _ & H3).
  split; [exact H1 | exact (f_equal fst H3)].
Defined.

(** * Further properties of the code *)

(** ** The file name of an upload *)

Lemma count_char_append (c : ascii) (s t : string) :
  count_char c (s ++ t) = (count_char c s + count_char c t)%nat.
Proof. induction s as [|x s IH]; simpl; [reflexivity|]. rewrite IH. lia. Qed.

Lemma string_append_assoc (s t v : string) : (s ++ t) ++ v = s ++ (t ++ v).
Proof. induction s as [|c s IH]; simpl; congruence. Qed.

Lemma split_on_nonempty (sep : ascii) (s : string) : split_on sep s <> [].
Proof.
  induction s as [|c s IH]; simpl; [discriminate|].
  destruct (Ascii.eqb c sep); [discriminate|].
  destruct (split_on sep s); discriminate.
Qed.

(** No segment of a split holds the separator. *)
Lemma split_on_segments_clean (sep : ascii) (s seg : string) :
  In seg (split_on sep s) -> count_char sep seg = O.
Proof.
  revert seg. induction s as [|c s IH]; simpl; intros seg Hin.
  - destruct Hin as [<- | []]. reflexivity.
  - destruct (Ascii.eqb c sep) eqn:Hc.
    + destruct Hin as [<- | Hin]; [reflexivity | now apply IH].
    + destruct (split_on sep s) as [|seg0 segs] eqn:Hs.
      * destruct Hin as [<- | []]. simpl. now rewrite Hc.
      * destruct Hin as [<- | Hin].
        -- simpl. rewrite Hc. apply IH. now left.
        -- apply IH. now right.
Qed.

Lemma split_on_clean_string (sep : ascii) (s : string) :
  count_char sep s = O -> split_on sep s = [s].
Proof.
  induction s as [|c s IH]; simpl; [reflexivity|].
  destruct (Ascii.eqb c sep); [discriminate|].
  simpl. intros H. now rewrite IH.
Qed.

(** Splitting around a separator splits both sides. *)
Lemma split_on_around (sep : ascii) (a b : string) :
  split_on sep (a ++ String sep b) = (split_on sep a ++ split_on sep b)%list.
Proof.
  induction a as [|c a IH]; simpl.
  - now rewrite Ascii.eqb_refl.
  - destruct (Ascii.eqb c sep); [now rewrite IH|].
    rewrite IH. pose proof (split_on_nonempty sep a) as Hne.
    destruct (split_on sep a); [contradiction | reflexivity].
Qed.

Lemma last_app_nonempty {A} (xs ys : list A) (d : A) :
  ys <> [] -> last (xs ++ ys) d = last ys d.
Proof.
  intros Hne. induction xs as [|x xs IH]; [reflexivity|].
  simpl. destruct (xs ++ ys)%list eqn:E; [|exact IH].
  apply app_eq_nil in E. destruct E as [_ E]. contradiction.
Qed.

Lemma last_In {A} (xs : list A) (d : A) : xs <> [] -> In (last xs d) xs.
Proof.
  induction xs as [|x xs IH]; [contradiction|]. intros _.
  destruct xs as [|y ys]; [now left|].
  right. apply IH. discriminate.
Qed.

Lemma removelast_incl {A} (xs : list A) (x : A) : In x (removelast xs) -> In x xs.
Proof.
  induction xs as [|y ys IH]; simpl; [trivial|].
  destruct ys as [|z zs]; [contradiction|].
  intros [<- | H]; [now left | right; now apply IH].
Qed.

Lemma count_char_concat_clean (c : ascii) (segs : list string) :
  (forall seg, In seg segs -> count_char c seg = O) ->
  count_char c (String.concat "" segs) = O.
Proof.
  induction segs as [|x xs IH]; intros H; [reflexivity|].
  simpl. destruct xs as [|y ys]; [apply H; now left|].
  simpl String.append. rewrite count_char_append, (H x (or_introl eq_refl)).
  apply IH. intros seg Hin. apply H. now right.
Qed.

Lemma string_of_uint_digits (c : ascii) (d : Decimal.uint) :
  (nat_of_ascii c < 48)%nat -> count_char c (NilEmpty.string_of_uint d) = O.
Proof.
  intros Hc.
  assert (Hneq : forall x, (48 <= nat_of_ascii x)%nat -> Ascii.eqb x c = false).
  { intros x Hx. apply Ascii.eqb_neq. intros ->. lia. }
  induction d; cbn [NilEmpty.string_of_uint count_char]; try reflexivity;
    (rewrite Hneq by (vm_compute; lia)); exact IHd.
Qed.

(** A printed integer holds neither a dot nor a dash. *)
Lemma Number_toString_digits (c : ascii) (n : N) :
  (nat_of_ascii c < 48)%nat -> count_char c (Number_toString n) = O.
Proof.
  intros Hc. unfold Number_toString, NilZero.string_of_uint.
  destruct (N.to_uint n) eqn:E; try (now apply string_of_uint_digits).
  cbn [count_char]. destruct (Ascii.eqb "0" c) eqn:E0; [|reflexivity].
  apply Ascii.eqb_eq in E0. subst c. vm_compute in Hc. lia.
Qed.

(** The last segment of the original name, with no dot inside. *)
Lemma extension_clean (originalname : string) :
  count_char "." (Array_last (split_on "." originalname)) = O.
Proof.
  apply split_on_segments_clean with (s := originalname).
  apply last_In, split_on_nonempty.
Qed.

(** X1.  Whatever the original name, the name under which the file is
    written holds exactly one dot: the dots between the segments of the
    original name are dropped and only the one before the last segment is
    put back. *)
Theorem diskStorage_filename_one_dot (dateNow random : N) (originalname : string) :
  count_char "." (diskStorage_filename dateNow random originalname) = 1%nat.
Proof.
  unfold diskStorage_filename. cbv zeta.
  rewrite !count_char_append.
  rewrite count_char_concat_clean.
  - rewrite !Number_toString_digits by (vm_compute; lia).
    rewrite extension_clean. reflexivity.
  - intros seg Hin. apply split_on_segments_clean with (s := originalname).
    now apply removelast_incl.
Qed.

(** X2.  The written name keeps the extension of the original: splitting
    it at the dots again, its last segment is the last segment of the
    original name. *)
Theorem diskStorage_filename_keeps_extension
    (dateNow random : N) (originalname : string) :
  Array_last (split_on "." (diskStorage_filename dateNow random originalname))
  = Array_last (split_on "." originalname).
Proof.
  unfold diskStorage_filename. cbv zeta.
  set (stem := String.concat "" (removelast (split_on "." originalname))).
  set (suffix := Number_toString dateNow ++ "-" ++ Number_toString random).
  set (lastSeg := Array_last (split_on "." originalname)).
  replace (stem ++ "-" ++ suffix ++ "." ++ lastSeg)
    with ((stem ++ "-" ++ suffix) ++ String "." lastSeg).
  - rewrite split_on_around.
    rewrite (split_on_clean_string "." lastSeg) by apply extension_clean.
    unfold Array_last at 1. now rewrite last_app_nonempty by discriminate.
  - rewrite string_append_assoc. reflexivity.
Qed.

(** X3.  A name without a dot is taken whole as the extension: the written
    name starts with the dash of the suffix and ends with the dot and the
    original name. *)
Theorem diskStorage_filename_without_dot
    (dateNow random : N) (originalname : string) :
  count_char "." originalname = O ->
  diskStorage_filename dateNow random originalname
  = "-" ++ Number_toString dateNow ++ "-" ++ Number_toString random
        ++ "." ++ originalname.
Proof.
  intros Hclean. unfold diskStorage_filename. cbv zeta.
  rewrite (split_on_clean_string "." originalname Hclean).
  unfold Array_last. cbn [removelast last String.concat].
  change ("" ++ "-" ++ ?x) with ("-" ++ x).
  rewrite string_append_assoc. reflexivity.
Qed.

Lemma diskStorage_filename_without_dot_witness :
  diskStorage_filename 1700000000000 42 "README" = "-1700000000000-42.README".
Proof.
  exact (@diskStorage_filename_without_dot 1700000000000 42 "README" eq_refl).
Defined.

(** ** Identifiers that are malformed or unknown *)

Section IdentifierErrors.

Variable ext : Collaborators.

(** X4.  [updateUser] and [updateUserFiles] test the identifier before they
    touch the store: a malformed one fails with
    BadRequestException('Invalid user ID') and the world, log included, is
    left as it was. *)
Theorem malformed_id_is_bad_request
    (userId : string) (dto : UpdateUserDto) (fileData : Json) (w : World) :
  ObjectId_isValid ext userId = false ->
  updateUser ext userId dto w = (Throw (BadRequestException "Invalid user ID"), w)
  /\ updateUserFiles ext userId fileData w
     = (Throw (BadRequestException "Invalid user ID"), w).
Proof.
  intros Hv. rewrite updateUser_eval, updateUserFiles_eval, Hv. split; reflexivity.
Qed.

(** X5.  For a well-formed identifier that no account carries, [updateUser]
    and [updateUserVerificationStatus] let their NotFoundException reach the
    caller as it is (status 404), and write nothing. *)
Theorem unknown_id_is_not_found (userId : string) (dto : UpdateUserDto) (w : World) :
  ObjectId_isValid ext userId = true ->
  find_by_id (ObjectId_new ext userId) (db w) = None ->
  updateUser ext userId dto w = (Throw (NotFoundException "User not found"), w)
  /\ updateUserVerificationStatus ext userId w
     = (Throw (NotFoundException "User not found"), w)
  /\ http_status (NotFoundException "User not found") = 404.
Proof.
  intros Hv Hf. rewrite updateUser_eval, updateUserVerificationStatus_eval.
  unfold lookup. rewrite Hv. cbv zeta. rewrite Hf. repeat split.
Qed.

(** X6.  [updateUserVerificationStatus] does not test the identifier: a
    malformed one makes the lookup fail in the driver, and that failure
    leaves as an InternalServerErrorException carrying the driver's message,
    not as a BadRequestException; nothing is written and no email is
    requested. *)
Theorem redeem_malformed_id_is_internal_error (userId : string) (w : World) :
  ObjectId_isValid ext userId = false ->
  updateUserVerificationStatus ext userId w
  = (Throw (InternalServerErrorException (castErrorMessage ext userId)), w).
Proof.
  intros Hv. rewrite updateUserVerificationStatus_eval. unfold lookup.
  now rewrite Hv.
Qed.

(** X7.  A successful [updateUser] returns the stored document with every
    path the body carries replaced by the value of the body, as given (a
    password is stored as submitted), and every other path, the [_id]
    included, as it was; a lookup by the same identifier afterwards returns
    that very document, the collection keeps its size and every other
    account is found as before. *)
Theorem updateUser_then_getUser (userId : string) (dto : UpdateUserDto)
    (w : World) (u : UserDocument) :
  ObjectId_isValid ext userId = true ->
  find_by_id (ObjectId_new ext userId) (db w) = Some u ->
  let updated :=
    mkUser (_id u)
           (match upd_username dto with Some given => given | None => username u end)
           (match upd_email dto with Some given => given | None => email u end)
           (match upd_password dto with Some given => given | None => password u end)
           (match upd_files dto with Some given => given | None => files u end)
           (match upd_isActive dto with Some given => given | None => isActive u end)
           (match upd_createdAt dto with Some given => given | None => createdAt u end) in
  let r := updateUser ext userId dto w in
  fst r = Return updated
  /\ getUser ext (ById userId) (snd r) = (Return (Some updated), snd r)
  /\ length (db (snd r)) = length (db w)
  /\ forall i, String.eqb i (ObjectId_new ext userId) = false ->
               find_by_id i (db (snd r)) = find_by_id i (db w).
Proof.
  intros Hv Hf. cbv zeta.
  change (mkUser (_id u) _ _ _ _ _ _) with (apply_update (SetFields dto) u).
  rewrite updateUser_eval, Hv. cbv zeta. rewrite Hf. simpl fst. simpl snd.
  assert (Hkeep : forall x, has_id (ObjectId_new ext userId) x = true ->
                            _id (apply_update (SetFields dto) x) = _id x)
    by reflexivity.
  repeat split.
  - rewrite getUser_eval. unfold lookup. rewrite Hv. simpl db.
    rewrite (find_update_first _ _ _ (db w) Hkeep), String.eqb_refl, Hf.
    reflexivity.
  - apply update_first_length.
  - intros i Hi. simpl db.
    now rewrite (find_update_first _ _ _ (db w) Hkeep), Hi.
Qed.

(** X8.  [getUser] has two outcomes only, the document found or an
    InternalServerErrorException: it never returns [null], never raises a
    NotFoundException, and never changes the world. *)
Theorem getUser_outcomes (q : Query) (w : World) :
  snd (getUser ext q w) = w
  /\ ((exists u, fst (getUser ext q w) = Return (Some u))
      \/ (exists m, fst (getUser ext q w) = Throw (InternalServerErrorException m))).
Proof.
  rewrite getUser_eval. split; [reflexivity|]. simpl.
  destruct (lookup ext q (db w)) as [[u|]|e]; eauto.
Qed.

(** X9.  The document [getUser] returns is a stored one and answers the
    query: it has the email asked for, or the identifier asked for. *)
Theorem getUser_returns_matching_account (q : Query) (w : World) (u : UserDocument) :
  fst (getUser ext q w) = Return (Some u) ->
  In u (db w)
  /\ match q with
     | ByEmail e => email u = e
     | ById userId => _id u = ObjectId_new ext userId
     end.
Proof.
  rewrite getUser_eval. simpl. destruct q as [e | userId]; simpl.
  - destruct (find (has_email e) (db w)) as [x|] eqn:Hf; [|discriminate].
    intros H. injection H as <-. apply find_some in Hf. destruct Hf as [Hin He].
    split; [exact Hin|]. now apply String.eqb_eq in He.
  - destruct (ObjectId_isValid ext userId); [|discriminate].
    destruct (find_by_id (ObjectId_new ext userId) (db w)) as [x|] eqn:Hf;
      [|discriminate].
    intros H. injection H as <-. split.
    + apply find_some in Hf. tauto.
    + now apply find_by_id_has_id in Hf.
Qed.

End IdentifierErrors.

(** ** Signup followed by other operations *)

Section AfterSignup.

Variable ext : Collaborators.

Lemma find_app_new {A} (f : A -> bool) (xs : list A) (x : A) :
  find f xs = None -> f x = true -> find f (xs ++ [x]) = Some x.
Proof.
  intros Hnone Hx. induction xs as [|y ys IH]; simpl in *.
  - now rewrite Hx.
  - destruct (f y); [discriminate | now apply IH].
Qed.

Lemma find_none_existsb {A} (f : A -> bool) (xs : list A) :
  find f xs = None -> existsb f xs = false.
Proof.
  induction xs as [|x rest IH]; simpl; [reflexivity|].
  destruct (f x); [discriminate | exact IH].
Qed.

(** The collection after a signup under the schema of the repository, when
    the identifier of the new document is not stored yet. *)
Lemma db_after_signup (dto : CreateUserDto) (w : World) :
  find_by_id (_id (new_document ext dto w)) (db w) = None ->
  db (snd (UserModule.createNewUser ext dto w))
  = (db w ++ [new_document ext dto w])%list.
Proof.
  intros Hfresh.
  unfold UserModule.createNewUser. rewrite createNewUser_eval. cbv zeta.
  rewrite UserSchema_only_id_index.
  rewrite (find_none_existsb _ _ Hfresh).
  destruct (sendEmail_outcome ext (verificationRequest (new_document ext dto w)));
    reflexivity.
Qed.

(** X10.  [createNewUser] reports the conflict
    BadRequestException('User with given email or username already exists')
    exactly when the insert hits a unique index of the injected model; in
    that case nothing is stored and no email is requested. *)
Theorem signup_conflict_iff_duplicate_key (sch : Schema) (jwt : JwtOptions)
    (dto : CreateUserDto) (w : World) :
  (fst (createNewUser ext sch jwt dto w)
   = Throw (BadRequestException "User with given email or username already exists")
   <-> violates_unique sch (new_document ext dto w) (db w) = true)
  /\ (violates_unique sch (new_document ext dto w) (db w) = true ->
      db (snd (createNewUser ext sch jwt dto w)) = db w
      /\ emails (snd (createNewUser ext sch jwt dto w)) = emails w
      /\ logs (snd (createNewUser ext sch jwt dto w)) = logs w).
Proof.
  rewrite createNewUser_eval. cbv zeta.
  destruct (violates_unique sch (new_document ext dto w) (db w)).
  - simpl. repeat split; auto.
  - split; [|discriminate].
    destruct (sendEmail_outcome ext (verificationRequest (new_document ext dto w)));
      simpl; split; discriminate.
Qed.

(** X11.  After a signup with an email that no stored account has and an
    identifier that is not stored yet, and with a bcrypt that accepts a
    password against its own hash, the credential check with the submitted
    email and password returns the new account, whether or not the
    verification email went out and whether or not the account is verified
    (it is not, unless the body itself carried [isActive]); [login] then
    signs a token whose [sub] is the [_id] of that account.  A password
    bcrypt rejects yields [null]. *)
Theorem signup_then_login (dto : CreateUserDto) (w : World) :
  find (has_email (dto_email dto)) (db w) = None ->
  find_by_id (_id (new_document ext dto w)) (db w) = None ->
  (forall data salt, bcrypt_compare ext data (bcrypt_hash ext data salt) = true) ->
  let account := new_document ext dto w in
  let w1 := snd (UserModule.createNewUser ext dto w) in
  AuthModule.validateUser ext (dto_email dto) (dto_password dto) w1
  = (Return (Some account), w1)
  /\ isActive account
     = match dto_isActive dto with Some given => given | None => false end
  /\ (exists t,
        AuthModule.login account w1 = (Return {| access_token := t |}, w1)
        /\ JwtService_verify jwtModuleOptions t
           = Some (JObj [("username", JStr (dto_username dto));
                         ("sub", JStr (_id account))]))
  /\ forall wrong,
       bcrypt_compare ext wrong (password account) = false ->
       AuthModule.validateUser ext (dto_email dto) wrong w1 = (Return None, w1).
Proof.
  intros Hnew Hfresh Hbcrypt. cbv zeta.
  set (account := new_document ext dto w).
  set (w1 := snd (UserModule.createNewUser ext dto w)).
  assert (Hfind : find (has_email (dto_email dto)) (db w1) = Some account).
  { unfold w1. rewrite (db_after_signup dto w Hfresh).
    apply find_app_new; [exact Hnew|].
    unfold has_email. simpl. apply String.eqb_refl. }
  assert (Heval : forall p,
             AuthModule.validateUser ext (dto_email dto) p w1
             = (if bcrypt_compare ext p (stored_hash account)
                then Return (Some account) else Return None, w1)).
  { intros p. unfold AuthModule.validateUser, validateUser, UserModule.getUser, bind.
    rewrite getUser_eval. simpl. rewrite Hfind. unfold stored_hash. simpl.
    destruct (bcrypt_compare ext p _); reflexivity. }
  repeat split.
  - rewrite Heval. unfold stored_hash, account, new_document. simpl.
    now rewrite Hbcrypt.
  - eexists. split; reflexivity.
  - intros wrong Hwrong. rewrite Heval. unfold stored_hash. now rewrite Hwrong.
Qed.


Lemma encodeURIComponent_unreserved (s : string) :
  forallb is_unreserved (list_ascii_of_string s) = true ->
  encodeURIComponent s = s.
Proof.
  induction s as [|c s IH]; simpl; [reflexivity|].
  intros H. apply andb_prop in H. destruct H as [Hc Hs].
  rewrite Hc. now rewrite IH.
Qed.

(** X13.  A signup that passes the unique indexes requests exactly one
    email, addressed to the submitted email and name, with the template
    'userVerificationRequest'; when the new identifier is made of characters
    that encodeURIComponent leaves alone (letters, digits and -_.!~*'()), as
    a hexadecimal ObjectId is, the link in it is
    http://localhost:3000/user/verify/ followed by the identifier
    unchanged. *)
Theorem signup_requests_verification_email (sch : Schema) (jwt : JwtOptions)
    (dto : CreateUserDto) (w : World) :
  violates_unique sch (new_document ext dto w) (db w) = false ->
  forallb is_unreserved (list_ascii_of_string (_id (new_document ext dto w))) = true ->
  emails (snd (createNewUser ext sch jwt dto w))
  = (emails w ++
     [ {| mail_URL := Some ("http://localhost:3000/user/verify/"
                              ++ _id (new_document ext dto w))%string;
          mail_name := dto_username dto;
          mail_email := dto_email dto;
          mail_subject := "Account Verification Required!";
          mail_template := "userVerificationRequest" |} ])%list.
Proof.
  intros Hok Hplain. rewrite createNewUser_eval. cbv zeta. rewrite Hok.
  assert (Hmail : verificationRequest (new_document ext dto w)
                  = {| mail_URL := Some ("http://localhost:3000/user/verify/"
                                           ++ _id (new_document ext dto w))%string;
                       mail_name := dto_username dto;
                       mail_email := dto_email dto;
                       mail_subject := "Account Verification Required!";
                       mail_template := "userVerificationRequest" |}).
  { unfold verificationRequest. now rewrite (encodeURIComponent_unreserved _ Hplain). }
  rewrite Hmail.
  destruct (sendEmail_outcome ext _); reflexivity.
Qed.

End AfterSignup.

(** ** The handlers of the controller *)

Section Handlers.

Variable ext : Collaborators.
Variable errorResponse : Exception -> M unit.
Variable awsService_uploadFile : Json -> M (option Json).

(** The [catch] block shared by the handlers: when the error response
    returns, so does the handler. *)
Lemma catch_block_returns (body : M (option ApiResponse))
    (line : Exception -> string) (w : World) :
  (forall e w', is_return (fst (errorResponse e w')) = true) ->
  is_return
    (fst (try_catch body
            (fun error =>
               Logger_error (line error) ;;; errorResponse error ;;; ret None) w))
  = true.
Proof.
  intros Hret. unfold try_catch.
  destruct (body w) as [[a|e] w']; [reflexivity|].
  unfold bind, Logger_error, Logger_write.
  match goal with |- context [errorResponse e ?w0] =>
    specialize (Hret e w0); destruct (errorResponse e w0) as [[[]|e'] w'']
  end; [reflexivity | discriminate].
Qed.

(** A handler that logs, calls the service and wraps its result. *)
Lemma handler_eval {A} (line : string) (service : M A) (wrap : A -> ApiResponse)
    (handler : Exception -> M (option ApiResponse)) (w : World) :
  try_catch (Logger_verbose line ;;; x <- service ;; ret (Some (wrap x))) handler w
  = match service (logged line w) with
    | (Return a, w') => (Return (Some (wrap a)), w')
    | (Throw e, w') => handler e w'
    end.
Proof.
  unfold try_catch, bind, Logger_verbose, Logger_write, ret, logged.
  destruct (service _) as [[a|e] w']; reflexivity.
Qed.

(** X14.  No handler rethrows by itself: if the error response returns
    instead of throwing, then every handler returns on every request,
    whatever the service or the storage client did. *)
Theorem handlers_return_when_errorResponse_returns
    (userId : string) (file : Json) (filename : option string)
    (dto : UpdateUserDto) (w : World) :
  (forall e w', is_return (fst (errorResponse e w')) = true) ->
  is_return (fst (getUserById ext errorResponse userId w)) = true
  /\ is_return (fst (Controller.verifyUser ext errorResponse userId w)) = true
  /\ is_return (fst (Controller.updateUser ext errorResponse dto userId w)) = true
  /\ is_return (fst (Controller.uploadFileToServer ext errorResponse file filename
                       userId w)) = true
  /\ is_return (fst (Controller.uploadFileToS3 ext errorResponse
                       awsService_uploadFile file userId w)) = true.
Proof.
  intros Hret.
  unfold getUserById, Controller.verifyUser, Controller.updateUser,
    Controller.uploadFileToServer, Controller.uploadFileToS3.
  repeat split.
  - apply (catch_block_returns _
             (fun error => "Error occured in getUserById -> " ++ error_message error)
             w Hret).
  - apply (catch_block_returns _
             (fun error => "Error occured in verifyUser -> " ++ error_message error)
             w Hret).
  - apply (catch_block_returns _
             (fun _ => "Error occured in updateUser controller") w Hret).
  - apply (catch_block_returns _
             (fun error => "Error occured in uploadFileToServer -> "
                             ++ error_message error) w Hret).
  - apply (catch_block_returns _
             (fun error => "Error occured in uploadFileToS3 -> "
                             ++ error_message error) w Hret).
Qed.

(** X15.  [verifyUser] on an account that is already active hands
    BadRequestException('User is already verified') to the error response,
    after logging it, and yields [undefined] if the error response
    returns. *)
Theorem verifyUser_already_verified (userId : string) (w : World) (u : UserDocument) :
  ObjectId_isValid ext userId = true ->
  find_by_id (ObjectId_new ext userId) (db w) = Some u ->
  isActive u = true ->
  Controller.verifyUser ext errorResponse userId w
  = (errorResponse (BadRequestException "User is already verified") ;;; ret None)
      (logged "Error occured in verifyUser -> User is already verified"
         (logged "Recieved a Post Request on verifyUser" w)).
Proof.
  intros Hv Hf Ha. unfold Controller.verifyUser. rewrite handler_eval.
  rewrite (@redeem_active_rejected ext userId
             (logged "Recieved a Post Request on verifyUser" w) u Hv Hf Ha).
  reflexivity.
Qed.


(** X17.  [uploadFileToServer] can answer 'File uploaded successfully' with
    status 200 while the file is recorded nowhere: when the identifier is
    well formed but carried by no account, and, whatever the identifier,
    when the interceptor set no file name, in which case the service is not
    called at all. *)
Theorem uploadFileToServer_success_without_record
    (file : Json) (name userId : string) (w : World) :
  ObjectId_isValid ext userId = true ->
  find_by_id (ObjectId_new ext userId) (db w) = None ->
  let r := Controller.uploadFileToServer ext errorResponse file (Some name) userId w in
  fst r = Return (Some (successResponse file "File uploaded successfully" 200))
  /\ db (snd r) = db w
  /\ forall anyId w0,
       Controller.uploadFileToServer ext errorResponse file None anyId w0
       = (Return (Some (successResponse file "File uploaded successfully" 200)),
          logged "Recieved a Post Request on uploadFileToServer" w0).
Proof.
  intros Hv Hf. cbv zeta.
  unfold Controller.uploadFileToServer.
  rewrite (handler_eval _ _ (fun _ : unit => successResponse file _ _)).
  rewrite updateUserFiles_eval, Hv. simpl.
  rewrite (update_first_absent _ _ _ Hf). repeat split.
Qed.

(** X18.  [uploadFileToServer] for a stored account puts the metadata of the
    file at the end of the files of that account and returns the same
    metadata as payload; a malformed identifier is handed to the error
    response as BadRequestException('Invalid user ID') instead. *)
Theorem uploadFileToServer_records
    (file : Json) (name userId : string) (w : World) (u : UserDocument) :
  ObjectId_isValid ext userId = true ->
  find_by_id (ObjectId_new ext userId) (db w) = Some u ->
  let r := Controller.uploadFileToServer ext errorResponse file (Some name) userId w in
  fst r = Return (Some (successResponse file "File uploaded successfully" 200))
  /\ option_map files (find_by_id (ObjectId_new ext userId) (db (snd r)))
     = Some (files u ++ [file])%list
  /\ forall badId w0,
       ObjectId_isValid ext badId = false ->
       Controller.uploadFileToServer ext errorResponse file (Some name) badId w0
       = (errorResponse (BadRequestException "Invalid user ID") ;;; ret None)
           (logged "Error occured in uploadFileToServer -> Invalid user ID"
              (logged "Recieved a Post Request on uploadFileToServer" w0)).
Proof.
  intros Hv Hf. cbv zeta. unfold Controller.uploadFileToServer.
  rewrite (handler_eval _ _ (fun _ : unit => successResponse file _ _)).
  rewrite updateUserFiles_eval, Hv. simpl. repeat split.
  - rewrite find_update_first by reflexivity.
    now rewrite String.eqb_refl, Hf.
  - intros badId w0 Hbad.
    rewrite (handler_eval _ _ (fun _ : unit => successResponse file _ _)).
    rewrite updateUserFiles_eval, Hbad. reflexivity.
Qed.

(** [uploadFileToS3] once the storage client has answered without touching
    the world. *)
Lemma uploadFileToS3_eval (file : Json) (userId : string) (w : World)
    (answer : option Json) :
  (forall w', awsService_uploadFile file w' = (Return answer, w')) ->
  Controller.uploadFileToS3 ext errorResponse awsService_uploadFile file userId w
  = let w0 := logged "Recieved a Post Request on uploadFileToS3" w in
    let resp := successResponse (optional_payload answer)
                  "File uploaded successfully" 200 in
    match answer with
    | Some r =>
        if js_truthy (get_field "Location" r)
        then
          match updateUserFiles ext userId r w0 with
          | (Return _, w') => (Return (Some resp), w')
          | (Throw e, w') =>
              (Logger_error ("Error occured in uploadFileToS3 -> " ++ error_message e) ;;;
               errorResponse e ;;; ret None) w'
          end
        else (Return (Some resp), w0)
    | None => (Return (Some resp), w0)
    end.
Proof.
  intros Haws. cbv zeta.
  unfold Controller.uploadFileToS3, try_catch.
  unfold bind at 1 2 3. unfold Logger_verbose, Logger_write.
  fold (logged "Recieved a Post Request on uploadFileToS3" w).
  rewrite Haws. destruct answer as [r|]; [|reflexivity].
  destruct (js_truthy (get_field "Location" r)); [|reflexivity].
  destruct (updateUserFiles ext userId r _) as [[[]|e] w']; reflexivity.
Qed.

(** X19.  [uploadFileToS3] whose storage client answers [undefined], or an
    object without a truthy [Location], still answers 'File uploaded
    successfully' with status 200 and the client's answer as payload, and
    records nothing on any account. *)
Theorem uploadFileToS3_without_location
    (file : Json) (userId : string) (w : World) (answer : option Json) :
  (forall w', awsService_uploadFile file w' = (Return answer, w')) ->
  match answer with
  | Some r => js_truthy (get_field "Location" r) = false
  | None => True
  end ->
  Controller.uploadFileToS3 ext errorResponse awsService_uploadFile file userId w
  = (Return (Some (successResponse (optional_payload answer)
                                   "File uploaded successfully" 200)),
     logged "Recieved a Post Request on uploadFileToS3" w).
Proof.
  intros Haws Hloc. rewrite (uploadFileToS3_eval userId w Haws). cbv zeta.
  destruct answer as [r|]; [|reflexivity]. now rewrite Hloc.
Qed.

(** X20.  [uploadFileToS3] whose storage client answers with a [Location]
    records that answer, not the uploaded file, at the end of the files of
    the stored account and returns it as payload. *)
Theorem uploadFileToS3_records_answer
    (file r : Json) (userId : string) (w : World) (u : UserDocument) :
  (forall w', awsService_uploadFile file w' = (Return (Some r), w')) ->
  js_truthy (get_field "Location" r) = true ->
  ObjectId_isValid ext userId = true ->
  find_by_id (ObjectId_new ext userId) (db w) = Some u ->
  let res := Controller.uploadFileToS3 ext errorResponse awsService_uploadFile
               file userId w in
  fst res = Return (Some (successResponse r "File uploaded successfully" 200))
  /\ option_map files (find_by_id (ObjectId_new ext userId) (db (snd res)))
     = Some (files u ++ [r])%list.
Proof.
  intros Haws Hloc Hv Hf. cbv zeta.
  rewrite (uploadFileToS3_eval userId w Haws). cbv zeta.
  rewrite Hloc, updateUserFiles_eval, Hv. simpl. split; [reflexivity|].
  rewrite find_update_first by reflexivity.
  now rewrite String.eqb_refl, Hf.
Qed.

(** X21.  The [updateUser] handler answers a stored account with status
    201 and, as payload, the stored document with every path the body
    carries replaced by the value of the body, which is the document stored
    from then on; for a well-formed identifier that no account carries it
    hands the NotFoundException of the service, unchanged, to the error
    response. *)
Theorem updateUser_handler_outcomes
    (dto : UpdateUserDto) (userId : string) (w : World) (u : UserDocument) :
  ObjectId_isValid ext userId = true ->
  find_by_id (ObjectId_new ext userId) (db w) = Some u ->
  let updated :=
    mkUser (_id u)
           (match upd_username dto with Some given => given | None => username u end)
           (match upd_email dto with Some given => given | None => email u end)
           (match upd_password dto with Some given => given | None => password u end)
           (match upd_files dto with Some given => given | None => files u end)
           (match upd_isActive dto with Some given => given | None => isActive u end)
           (match upd_createdAt dto with Some given => given | None => createdAt u end) in
  let r := Controller.updateUser ext errorResponse dto userId w in
  fst r = Return (Some {| success := true;
                          message := "User updated successfully";
                          data := toObject updated;
                          statusCode := 201 |})
  /\ find_by_id (ObjectId_new ext userId) (db (snd r)) = Some updated
  /\ forall w0,
       find_by_id (ObjectId_new ext userId) (db w0) = None ->
       Controller.updateUser ext errorResponse dto userId w0
       = (errorResponse (NotFoundException "User not found") ;;; ret None)
           (logged "Error occured in updateUser controller"
              (logged "Recieved a Post Request on updateUser" w0)).
Proof.
  intros Hv Hf. cbv zeta.
  change (mkUser (_id u) _ _ _ _ _ _) with (apply_update (SetFields dto) u).
  unfold Controller.updateUser.
  rewrite (handler_eval _ _ (fun x => successResponse (toObject x) _ _)).
  rewrite updateUser_eval, Hv. cbv zeta. simpl db. rewrite Hf.
  split; [reflexivity|]. split.
  - simpl. rewrite find_update_first by reflexivity.
    now rewrite String.eqb_refl, Hf.
  - intros w0 Hnone.
    rewrite (handler_eval _ _ (fun x => successResponse (toObject x) _ _)).
    rewrite updateUser_eval, Hv. cbv zeta. simpl db. rewrite Hnone. reflexivity.
Qed.

End Handlers.

(** ** The further properties on explicit requests *)

Lemma Sample_compare_any_salt (data salt : string) :
  Sample.compare_any_salt data (Sample.hash data salt) = true.
Proof.
  unfold Sample.compare_any_salt, Sample.hash.
  induction salt as [|c salt IH].
  - simpl String.append. unfold Sample.ends_with.
    now rewrite String.eqb_refl.
  - change (String c salt ++ "#" ++ data) with (String c (salt ++ "#" ++ data)).
    cbn [Sample.ends_with]. rewrite IH. apply orb_true_r.
Qed.

Lemma malformed_id_is_bad_request_witness :
  updateUser Sample.delivering Sample.malformed_id Sample.rename_dto
    Sample.world_with_alice
  = (Throw (BadRequestException "Invalid user ID"), Sample.world_with_alice)
  /\ updateUserFiles Sample.delivering Sample.malformed_id Sample.report_file
       Sample.world_with_alice
     = (Throw (BadRequestException "Invalid user ID"), Sample.world_with_alice).
Proof.
  exact (@malformed_id_is_bad_request Sample.delivering Sample.malformed_id
           Sample.rename_dto Sample.report_file Sample.world_with_alice eq_refl).
Defined.

Lemma unknown_id_is_not_found_witness :
  updateUser Sample.delivering Sample.unknown_id Sample.rename_dto
    Sample.world_with_alice
  = (Throw (NotFoundException "User not found"), Sample.world_with_alice)
  /\ updateUserVerificationStatus Sample.delivering Sample.unknown_id
       Sample.world_with_alice
     = (Throw (NotFoundException "User not found"), Sample.world_with_alice).
Proof.
  destruct (@unknown_id_is_not_found Sample.delivering Sample.unknown_id
              Sample.rename_dto Sample.world_with_alice eq_refl eq_refl)
    as (H1 & H2 & _).
  split; [exact H1 | exact H2].
Defined.

Lemma redeem_malformed_id_is_internal_error_witness :
  updateUserVerificationStatus Sample.delivering Sample.malformed_id
    Sample.world_with_alice
  = (Throw (InternalServerErrorException "Cast to ObjectId failed for value 42"),
     Sample.world_with_alice).
Proof.
  exact (@redeem_malformed_id_is_internal_error Sample.delivering
           Sample.malformed_id Sample.world_with_alice eq_refl).
Defined.

Lemma updateUser_then_getUser_witness :
  let updated :=
    mkUser Sample.alice_id "a" "alice@x.com" "p3" [] false 1700000000000 in
  let r := updateUser Sample.delivering Sample.alice_id Sample.contact_dto
             Sample.world_with_alice in
  fst r = Return updated
  /\ getUser Sample.delivering (ById Sample.alice_id) (snd r)
     = (Return (Some updated), snd r).
Proof.
  destruct (@updateUser_then_getUser Sample.delivering Sample.alice_id
              Sample.contact_dto Sample.world_with_alice Sample.alice
              eq_refl eq_refl)
    as (H1 & H2 & _).
  split; [exact H1 | exact H2].
Defined.

Lemma getUser_returns_matching_account_witness :
  In Sample.alice (db Sample.world_with_alice) /\ email Sample.alice = "a@x.com".
Proof.
  exact (@getUser_returns_matching_account Sample.delivering (ByEmail "a@x.com")
           Sample.world_with_alice Sample.alice eq_refl).
Defined.

Lemma signup_conflict_iff_duplicate_key_witness :
  db (snd (createNewUser Sample.delivering Sample.strict_schema jwtModuleOptions
             Sample.alice_dto Sample.world_with_alice))
  = [Sample.alice].
Proof.
  destruct (@signup_conflict_iff_duplicate_key Sample.delivering
              Sample.strict_schema jwtModuleOptions Sample.alice_dto
              Sample.world_with_alice) as [_ H].
  destruct (H eq_refl) as (Hdb & _). exact Hdb.
Defined.

Lemma signup_then_login_witness :
  let w1 := snd (UserModule.createNewUser Sample.accepting Sample.bob_dto
                   Sample.world_with_alice) in
  AuthModule.validateUser Sample.accepting "b@x.com" "p2" w1
  = (Return (Some (new_document Sample.accepting Sample.bob_dto
                     Sample.world_with_alice)), w1)
  /\ AuthModule.validateUser Sample.accepting "b@x.com" "p1" w1 = (Return None, w1).
Proof.
  destruct (@signup_then_login Sample.accepting Sample.bob_dto
              Sample.world_with_alice eq_refl eq_refl Sample_compare_any_salt)
    as (H1 & _ & _ & H4).
  split; [exact H1 | exact (H4 "p1" eq_refl)].
Defined.


Lemma signup_requests_verification_email_witness :
  map mail_URL
    (emails (snd (createNewUser Sample.delivering Sample.strict_schema
                    jwtModuleOptions Sample.bob_dto Sample.world_with_alice)))
  = [Some "http://localhost:3000/user/verify/000000000000000000000003"].
Proof.
  exact (f_equal (map mail_URL)
           (@signup_requests_verification_email Sample.delivering
              Sample.strict_schema jwtModuleOptions Sample.bob_dto
              Sample.world_with_alice eq_refl eq_refl)).
Defined.

Lemma handlers_return_when_errorResponse_returns_witness :
  is_return (fst (getUserById Sample.delivering Sample.format_only
                    Sample.unknown_id Sample.world_with_alice)) = true
  /\ is_return (fst (Controller.verifyUser Sample.delivering Sample.format_only
                       Sample.unknown_id Sample.world_with_alice)) = true
  /\ is_return (fst (Controller.updateUser Sample.delivering Sample.format_only
                       Sample.rename_dto Sample.unknown_id
                       Sample.world_with_alice)) = true
  /\ is_return (fst (Controller.uploadFileToServer Sample.delivering
                       Sample.format_only Sample.report_file (Some "r-1-2.pdf")
                       Sample.malformed_id Sample.world_with_alice)) = true
  /\ is_return (fst (Controller.uploadFileToS3 Sample.delivering
                       Sample.format_only Sample.aws_storing Sample.report_file
                       Sample.malformed_id Sample.world_with_alice)) = true.
Proof.
  exact (@handlers_return_when_errorResponse_returns Sample.delivering
           Sample.format_only Sample.aws_storing Sample.unknown_id
           Sample.report_file (Some "r-1-2.pdf") Sample.rename_dto
           Sample.world_with_alice (fun _ _ => eq_refl)).
Defined.

Lemma verifyUser_already_verified_witness :
  fst (Controller.verifyUser Sample.delivering Sample.rethrow Sample.alice_id
         (mkWorld [Sample.alice_verified] [] [] 0 0))
  = Throw (BadRequestException "User is already verified").
Proof.
  exact (f_equal fst
           (@verifyUser_already_verified Sample.delivering Sample.rethrow
              Sample.alice_id (mkWorld [Sample.alice_verified] [] [] 0 0)
              Sample.alice_verified eq_refl eq_refl eq_refl)).
Defined.


Lemma uploadFileToServer_success_without_record_witness :
  let r := Controller.uploadFileToServer Sample.delivering Sample.rethrow
             Sample.report_file (Some "reportfinal-1700000000000-42.pdf")
             Sample.unknown_id Sample.world_with_alice in
  fst r = Return (Some (successResponse Sample.report_file
                          "File uploaded successfully" 200))
  /\ db (snd r) = [Sample.alice].
Proof.
  destruct (@uploadFileToServer_success_without_record Sample.delivering
              Sample.rethrow Sample.report_file
              "reportfinal-1700000000000-42.pdf"
              Sample.unknown_id Sample.world_with_alice eq_refl eq_refl)
    as (H1 & H2 & _).
  split; [exact H1 | exact H2].
Defined.

Lemma uploadFileToServer_records_witness :
  let r := Controller.uploadFileToServer Sample.delivering Sample.rethrow
             Sample.report_file (Some "reportfinal-1700000000000-42.pdf")
             Sample.alice_id Sample.world_with_alice in
  option_map files (find_by_id Sample.alice_id (db (snd r)))
  = Some [Sample.report_file].
Proof.
  destruct (@uploadFileToServer_records Sample.delivering Sample.rethrow
              Sample.report_file "reportfinal-1700000000000-42.pdf"
              Sample.alice_id Sample.world_with_alice Sample.alice
              eq_refl eq_refl) as (_ & H2 & _).
  exact H2.
Defined.

Lemma uploadFileToS3_without_location_witness :
  fst (Controller.uploadFileToS3 Sample.delivering Sample.rethrow
         Sample.aws_without_location Sample.report_file Sample.alice_id
         Sample.world_with_alice)
  = Return (Some (successResponse (JObj [("Key", JStr "report")])
                    "File uploaded successfully" 200)).
Proof.
  exact (f_equal fst
           (@uploadFileToS3_without_location Sample.delivering Sample.rethrow
              Sample.aws_without_location Sample.report_file Sample.alice_id
              Sample.world_with_alice (Some (JObj [("Key", JStr "report")]))
              (fun _ => eq_refl) eq_refl)).
Defined.

Lemma uploadFileToS3_records_answer_witness :
  let res := Controller.uploadFileToS3 Sample.delivering Sample.rethrow
               Sample.aws_storing Sample.report_file Sample.alice_id
               Sample.world_with_alice in
  option_map files (find_by_id Sample.alice_id (db (snd res)))
  = Some [JObj [("Location", JStr "https://bucket.s3.amazonaws.com/report");
                ("Key", JStr "report")]].
Proof.
  exact (proj2 (@uploadFileToS3_records_answer Sample.delivering Sample.rethrow
                  Sample.aws_storing Sample.report_file _ Sample.alice_id
                  Sample.world_with_alice Sample.alice
                  (fun _ => eq_refl) eq_refl eq_refl eq_refl)).
Defined.

Lemma updateUser_handler_outcomes_witness :
  let updated :=
    mkUser Sample.alice_id "alice" "a@x.com" "$2b$10$0000#p1" [] false
           1700000000000 in
  let r := Controller.updateUser Sample.delivering Sample.rethrow Sample.rename_dto
             Sample.alice_id Sample.world_with_alice in
  fst r = Return (Some {| success := true;
                          message := "User updated successfully";
                          data := toObject updated;
                          statusCode := 201 |})
  /\ find_by_id Sample.alice_id (db (snd r)) = Some updated.
Proof.
  destruct (@updateUser_handler_outcomes Sample.delivering Sample.rethrow
              Sample.rename_dto Sample.alice_id Sample.world_with_alice
              Sample.alice eq_refl eq_refl)
    as (H1 & H2 & _).
  split; [exact H1 | exact H2].
Defined.
